(** * wurzel: content-addressed transpile and analysis caches behind an Express router

    A shallow embedding of [src/lib/index.ts], the module that bin/wurzel.ts
    mounts.  The file follows the source top-down: JavaScript string helpers, the byte-budgeted LRU cache the
    router instantiates twice, the closures [maybeTranspile],
    [tryReadScriptAsString] and [analyzeCode], the import resolver and the
    request-classifying middleware.  Calls into other packages (the digest,
    the transpiler, the analyzer, the file system, module resolution) are
    parameters of the development; every such call is recorded in a trace so
    that statements can say which collaborator was called, and how often. *)

From Stdlib Require Import String Ascii List NArith Lia Bool.
Import ListNotations.

Set Implicit Arguments.
Set Default Proof Using "Type".

(** * Part I: the program *)

(** ** JavaScript strings *)

Module JsString.

(** [s.length] *)
Definition length (s : string) : N := N.of_nat (String.length s).

(** [s.startsWith(p)] *)
Definition startsWith (s p : string) : bool := String.prefix p s.

(** [s.endsWith(e)]: some tail of [s] is [e]. *)
Fixpoint endsWith (s e : string) : bool :=
  String.eqb s e ||
  match s with
  | EmptyString => false
  | String _ s' => endsWith s' e
  end.

(** The double-quote character, for template literals that embed one. *)
Definition dquote : string := String (ascii_of_nat 34) EmptyString.

(** [`"${s}"`] *)
Definition quoted (s : string) : string := (dquote ++ s ++ dquote)%string.

End JsString.

(** ** The byte-budgeted LRU cache *)

Module LRUCache.

Section Cache.
Variable V : Type.

(** Modelled from the spec: the [lru-cache] package ([LRUCache], imported at
    index.ts:17) is not under src/.  Section 3 gives the entry as
    [{ key, value, size }], [size] being what is charged against the byte
    budget. *)
Record Entry := mkEntry { key : string; value : V; size : N }.

(** Modelled from the spec: the cache of the absent [lru-cache] package, "an
    ordered collection" of entries with a configured [maxBytes] (section 3).
    The entries are kept from least recently used (head) to most recently
    used (last); [maxSize] and [sizeCalculation] are the two options the
    router passes to the constructor. *)
Record t := mk {
  maxSize : N;
  sizeCalculation : V -> string -> N;
  entries : list Entry
}.

(** Modelled from the spec: [new LRUCache({ maxSize, sizeCalculation })] of
    the absent package, a cache "created once per router instance", empty.
    The package wants a positive [maxSize]; with 0 this model retains
    nothing. *)
Definition create (maxSize : N) (sizeCalculation : V -> string -> N) : t :=
  mk maxSize sizeCalculation [].

Definition withEntries (c : t) (es : list Entry) : t :=
  mk (maxSize c) (sizeCalculation c) es.

Fixpoint calculatedSize (es : list Entry) : N :=
  match es with
  | [] => 0
  | e :: es' => size e + calculatedSize es'
  end.

Fixpoint find (k : string) (es : list Entry) : option Entry :=
  match es with
  | [] => None
  | e :: es' => if String.eqb (key e) k then Some e else find k es'
  end.

Fixpoint remove (k : string) (es : list Entry) : list Entry :=
  match es with
  | [] => []
  | e :: es' => if String.eqb (key e) k then remove k es' else e :: remove k es'
  end.

(** Modelled from the spec: the eviction loop of the absent package, "evict
    least-recently-used entries until under budget" (section 4.1): entries
    are dropped from the least-recently-used end while the remaining ones
    take more than [room]. *)
Fixpoint evict (room : N) (es : list Entry) : list Entry :=
  match es with
  | [] => []
  | _ :: es' => if (room <? calculatedSize es)%N then evict room es' else es
  end.

(** Modelled from the spec: [get] of the absent package, "get(key) -> V or
    absent", which "promotes the entry to most-recently-used" (section 4.1).
    A miss changes nothing. *)
Definition get (k : string) (c : t) : option V * t :=
  match find k (entries c) with
  | Some e => (Some (value e), withEntries c (remove k (entries c) ++ [e]))
  | None => (None, c)
  end.

(** Modelled from the spec: removal of the entry stored under a key, as the
    absent package does before it replaces or refuses an entry. *)
Definition delete (k : string) (c : t) : t :=
  withEntries c (remove k (entries c)).

(** Modelled from the spec: [set] of the absent package.  "set computes size
    from key and value"; "on every set that would push total size over
    maxBytes, evict least-recently-used entries until under budget, then
    insert" (section 4.1); an entry already stored under the key is "replaced
    wholesale" (section 3), the new one being the most recently used.  For an
    entry whose size alone exceeds the budget the spec defers to the
    "underlying LRU semantics" and names the two possible outcomes, "rejected
    outright or stored and immediately evicted" (section 9); either way the
    entry is not in the cache afterwards.  The package rejects it, and
    deletes what was stored under the key.  It also refuses sizes that are
    not positive; every size the router computes includes the length of a
    hexadecimal digest, so that refusal is not modelled. *)
Definition set (k : string) (v : V) (c : t) : t :=
  let sz := sizeCalculation c v k in
  if (maxSize c <? sz)%N then delete k c
  else withEntries c
         (evict (maxSize c - sz) (remove k (entries c)) ++ [mkEntry k v sz]).

Definition keys (c : t) : list string := map key (entries c).

(** The cache invariant of the spec's data model: unique keys, total
    accounted size within the budget, and every entry charged what
    [sizeCalculation] gives for it. *)
Definition wf (c : t) : Prop :=
  NoDup (keys c) /\
  (calculatedSize (entries c) <= maxSize c)%N /\
  Forall (fun e => size e = sizeCalculation c (value e) (key e)) (entries c).

End Cache.

Arguments create {V} maxSize sizeCalculation.
Arguments key {V} e.
Arguments value {V} e.
Arguments size {V} e.

End LRUCache.

(** ** Values exchanged with the collaborators *)

(** A JavaScript [Error]; [code] is the [NodeJS.ErrnoException] field. *)
Record Error := mkError { message : string; code : option string }.

(** [Error(msg)] *)
Definition JsError (msg : string) : Error := mkError msg None.

(** [err.code === c] *)
Definition hasCode (err : Error) (c : string) : bool :=
  match code err with
  | Some c' => String.eqb c' c
  | None => false
  end.

(** How a call ends: it returns (an async function's promise fulfils) or it
    throws (the promise rejects). *)
Inductive Completion (A : Type) : Type :=
| Normal (a : A)
| Abrupt (e : Error).

Arguments Abrupt {A} e.

(** [TTranspileResult = ITranspileErrorResult | ITranspileSuccessResult] *)
Inductive TTranspileResult : Type :=
| TranspileError (error : Error)
| TranspileSuccess (transpiled : string).

(** What [await transpileCode({ code })] does: it throws, or it yields an
    object whose [transpiledCode] is a string or undefined. *)
Inductive TranspileCodeReply : Type :=
| TranspileCodeThrows (ex : Error)
| TranspileCodeReturns (transpiledCode : option string).

(** What [defaultCodeAnalyzer({ code })] returns: [{ error }] or [{ result }]. *)
Inductive CodeAnalyzeReply (R : Type) : Type :=
| AnalyzeError (error : Error)
| AnalyzeResult (result : R).

Arguments AnalyzeError {R} error.

(** What [readFile(filePath, "utf8")] settles to. *)
Inductive ReadFileReply : Type :=
| ReadFileRejects (err : Error)
| ReadFileResolves (fileContent : string).

(** What [resolveImport(specifier, parent)] does. *)
Inductive ResolveImportReply : Type :=
| ResolveImportThrows (error : Error)
| ResolveImportReturns (resolvedUrl : string).

(** [ETryReadErrorCode] and the value built by [createReadError]. *)
Inductive ETryReadErrorCode : Type := FILE_NOT_FOUND | IO_ERROR.

Record ReadError := createReadError {
  readErrorCode : ETryReadErrorCode;
  readErrorMessage : string;
  cause : Error
}.

Inductive TryReadResult : Type :=
| ReadFailure (error : ReadError)
| ReadContent (content : string).

(** The result of [resolveImportPath]. *)
Inductive ImportResolution : Type :=
| ImportError (error : Error)
| ImportFilePath (filePath : string).

(** ** The trace of calls to collaborators, newest first *)

Inductive Event : Type :=
| Md5 (content : string)
| TranspileCacheGet (key : string)
| TranspileCacheSet (key value : string)
| TranspileCode (code : string)
| AnalyzeCacheGet (key : string)
| AnalyzeCacheSet (key : string)
| DefaultCodeAnalyzer (code : string)
| ReadFile (filePath : string).

(** The codes handed to the external transpiler, newest first. *)
Fixpoint transpilerCalls (tr : list Event) : list string :=
  match tr with
  | [] => []
  | TranspileCode c :: tr' => c :: transpilerCalls tr'
  | _ :: tr' => transpilerCalls tr'
  end.

(** The codes handed to the external analyzer, newest first. *)
Fixpoint analyzerCalls (tr : list Event) : list string :=
  match tr with
  | [] => []
  | DefaultCodeAnalyzer c :: tr' => c :: analyzerCalls tr'
  | _ :: tr' => analyzerCalls tr'
  end.

(** ** The state captured by the closures of [expressRouter] *)

Record State (R : Type) : Type := mkState {
  transpileCache : LRUCache.t string;
  analyzeCache : LRUCache.t R;
  trace : list Event
}.

(** A computation over that state which returns or throws. *)
Definition M (R A : Type) : Type := State R -> Completion A * State R.

Definition ret {R A : Type} (a : A) : M R A := fun s => (Normal a, s).

Definition throw {R A : Type} (e : Error) : M R A := fun s => (Abrupt e, s).

Definition bind {R A B : Type} (m : M R A) (f : A -> M R B) : M R B :=
  fun s =>
    match m s with
    | (Normal a, s') => f a s'
    | (Abrupt e, s') => (Abrupt e, s')
    end.

Declare Scope wurzel_scope.
Delimit Scope wurzel_scope with wurzel.
Notation "x <- m ;; k" := (bind m (fun x => k))
  (at level 61, m at next level, right associativity) : wurzel_scope.
Notation "m ;; k" := (bind m (fun _ => k))
  (at level 61, right associativity) : wurzel_scope.

(** ** Requests *)

Record Request := mkRequest { method : string; url : string; baseUrl : string }.

(** Where the router sends a request: into [server.handleRequest], or past the
    first middleware into [express.static(baseFolder)]. *)
Inductive Routed : Type :=
| HandleRequest (uri : string)
| ExpressStatic (baseFolder : string) (req : Request).

(** What the first middleware does when it does not throw. *)
Inductive Middleware : Type :=
| Handled (uri : string)
| Next.

(** ** Sample collaborators, used to evaluate the program on concrete inputs *)

Module Sample.

(** The MD5 digests, in hexadecimal, of the contents used in Part IV; any
    other content gets a stand-in of the same length. *)
Definition digest (content : string) : string :=
  if String.eqb content "const x = 1;" then "352f5bbd9ad08d3d3625f0a622e4465c"
  else if String.eqb content "const x = ;" then "258c8eb8fd91da9019279d0e65b4c588"
  else if String.eqb content "export const a = 1;" then "de16e6d935b57f531b02d668b062a29c"
  else if String.eqb content "aaaa" then "74b87337454200d4d33f80c4663dc5e5"
  else if String.eqb content "bbbb" then "65ba841e01d6db7733e90a5b7f9e6f80"
  else substring 0 32 (content ++ "00000000000000000000000000000000").

(** A transpiler that always succeeds. *)
Definition transpiler (_ : list Event) (code : string) : TranspileCodeReply :=
  TranspileCodeReturns (Some ("/* js */ " ++ code)%string).

(** A transpiler that always throws. *)
Definition failingTranspiler (_ : list Event) (_ : string) : TranspileCodeReply :=
  TranspileCodeThrows (JsError "Unexpected token").

(** A transpiler that breaks its contract: no exception, no string. *)
Definition brokenTranspiler (_ : list Event) (_ : string) : TranspileCodeReply :=
  TranspileCodeReturns None.

(** Analysis results are represented by their JSON text. *)
Definition analyzer (_ : list Event) (code : string) : CodeAnalyzeReply string :=
  AnalyzeResult ("{}"%string).

Definition failingAnalyzer (_ : list Event) (_ : string) : CodeAnalyzeReply string :=
  AnalyzeError (JsError "parse error").

Definition stringify (r : string) : string := r.

(** A file system with one readable file, one unreadable one, nothing else. *)
Definition fs (_ : list Event) (filePath : string) : ReadFileReply :=
  if String.eqb filePath "/srv/app.ts" then ReadFileResolves "const x = 1;"
  else if String.eqb filePath "/srv/locked.ts"
  then ReadFileRejects (mkError "EACCES: permission denied" (Some "EACCES"%string))
  else ReadFileRejects (mkError "ENOENT: no such file or directory" (Some "ENOENT"%string)).

(** Module resolution: a built-in, a data URL, a missing package, a file. *)
Definition resolver (specifier _ : string) : ResolveImportReply :=
  if String.eqb specifier "fs" then ResolveImportReturns "node:fs"
  else if String.eqb specifier "data:text/javascript,1"
  then ResolveImportReturns "data:text/javascript,1"
  else if String.eqb specifier "nope"
  then ResolveImportThrows (mkError "Cannot find package 'nope'" (Some "ERR_MODULE_NOT_FOUND"%string))
  else ResolveImportReturns ("file:///srv/" ++ specifier)%string.

Definition toFileURL (path : string) : string := ("file://" ++ path)%string.

Definition fromFileURL (u : string) : string :=
  substring 7 (String.length u - 7) u.

End Sample.

(** A second file system, with a native module beside the files of
    [Sample.fs]. *)
Module SampleFiles.

Definition fs (tr : list Event) (filePath : string) : ReadFileReply :=
  if String.eqb filePath "/srv/lib/util.mjs" then ReadFileResolves "export {};"
  else Sample.fs tr filePath.

End SampleFiles.

(** A transpiler whose output changes from one call to the next: it stamps
    the number of calls made before. *)
Module SampleVersions.

Definition transpiler (tr : list Event) (code : string) : TranspileCodeReply :=
  match transpilerCalls tr with
  | [] => TranspileCodeReturns (Some ("/* build 1 */ " ++ code)%string)
  | _ :: _ => TranspileCodeReturns (Some ("/* build 2 */ " ++ code)%string)
  end.

End SampleVersions.

(** ** The router and its closures *)

Section Router.

(** [ICodeAnalyzeResult] of the debug core, and [JSON.stringify] on it. *)
Variable ICodeAnalyzeResult : Type.
Variable JSON_stringify : ICodeAnalyzeResult -> string.

(** [createHash("md5").update(content).digest("hex")] *)
Variable hexDigestMd5 : string -> string.

(** The external transpiler and analyzer.  Their answer may depend on what
    happened before (a transient failure), so they read the trace. *)
Variable transpileCode : list Event -> string -> TranspileCodeReply.
Variable defaultCodeAnalyzer :
  list Event -> string -> CodeAnalyzeReply ICodeAnalyzeResult.

(** [readFile] of node:fs/promises. *)
Variable readFile : list Event -> string -> ReadFileReply.

(** [resolve] of import-meta-resolve, and the two URL conversions of
    node:url ([pathToFileURL] composed with [toString]). *)
Variable resolveImport : string -> string -> ResolveImportReply.
Variable pathToFileURL : string -> string.
Variable fileURLToPath : string -> string.

Local Abbreviation St := (State ICodeAnalyzeResult).
Local Abbreviation Run := (M ICodeAnalyzeResult).
Local Open Scope wurzel_scope.

(** index.ts:20 *)
Definition md5 (content : string) : Run string :=
  fun s =>
    (Normal (hexDigestMd5 content),
     mkState (transpileCache s) (analyzeCache s) (Md5 content :: trace s)).

(** index.ts:36 *)
Definition defaultResolveImportPath (importer specifier : string) : ImportResolution :=
  let parentUrl := pathToFileURL importer in
  match resolveImport specifier parentUrl with
  | ResolveImportThrows error => ImportError error
  | ResolveImportReturns resolvedUrl =>
      if JsString.startsWith resolvedUrl "node:" then
        ImportError (JsError ("node imports are not supported, got "
                              ++ JsString.quoted resolvedUrl))
      else if negb (JsString.startsWith resolvedUrl "file:") then
        ImportError (JsError ("only file imports are supported, got "
                              ++ JsString.quoted resolvedUrl))
      else
        let resolvedPath := fileURLToPath resolvedUrl in
        ImportFilePath resolvedPath
  end.

(** index.ts:91 and index.ts:98, the two [sizeCalculation] callbacks. *)
Definition transpileSize (value key : string) : N :=
  (JsString.length key + JsString.length value)%N.

Definition analyzeSize (value : ICodeAnalyzeResult) (key : string) : N :=
  (JsString.length key + JsString.length (JSON_stringify value))%N.

(** [transpileCache.get], [transpileCache.set], [analyzeCache.get] and
    [analyzeCache.set] on the captured caches. *)
Definition transpileCacheGet (key : string) : Run (option string) :=
  fun s =>
    let (cached, c) := LRUCache.get key (transpileCache s) in
    (Normal cached, mkState c (analyzeCache s) (TranspileCacheGet key :: trace s)).

Definition transpileCacheSet (key value : string) : Run unit :=
  fun s =>
    (Normal tt,
     mkState (LRUCache.set key value (transpileCache s)) (analyzeCache s)
             (TranspileCacheSet key value :: trace s)).

Definition analyzeCacheGet (key : string) : Run (option ICodeAnalyzeResult) :=
  fun s =>
    let (cached, c) := LRUCache.get key (analyzeCache s) in
    (Normal cached, mkState (transpileCache s) c (AnalyzeCacheGet key :: trace s)).

Definition analyzeCacheSet (key : string) (value : ICodeAnalyzeResult) : Run unit :=
  fun s =>
    (Normal tt,
     mkState (transpileCache s) (LRUCache.set key value (analyzeCache s))
             (AnalyzeCacheSet key :: trace s)).

(** The awaited calls into the collaborators. *)
Definition awaitTranspileCode (code : string) : Run TranspileCodeReply :=
  fun s =>
    (Normal (transpileCode (trace s) code),
     mkState (transpileCache s) (analyzeCache s) (TranspileCode code :: trace s)).

Definition callDefaultCodeAnalyzer (code : string)
  : Run (CodeAnalyzeReply ICodeAnalyzeResult) :=
  fun s =>
    (Normal (defaultCodeAnalyzer (trace s) code),
     mkState (transpileCache s) (analyzeCache s) (DefaultCodeAnalyzer code :: trace s)).

Definition awaitReadFile (filePath : string) : Run ReadFileReply :=
  fun s =>
    (Normal (readFile (trace s) filePath),
     mkState (transpileCache s) (analyzeCache s) (ReadFile filePath :: trace s)).

(** index.ts:105, the test of the fast path. *)
Definition isNative (filePath : string) : bool :=
  JsString.endsWith filePath ".js" || JsString.endsWith filePath ".mjs".

(** index.ts:104 *)
Definition maybeTranspile (filePath code : string) : Run TTranspileResult :=
  if isNative filePath then ret (TranspileSuccess code)
  else
    hash <- md5 code ;;
    cached <- transpileCacheGet hash ;;
    match cached with
    | Some cachedValue => ret (TranspileSuccess cachedValue)
    | None =>
        reply <- awaitTranspileCode code ;;
        match reply with
        | TranspileCodeThrows ex => ret (TranspileError ex)
        | TranspileCodeReturns None =>
            throw (JsError "BUG: transpiled code is undefined")
        | TranspileCodeReturns (Some transpiled) =>
            transpileCacheSet hash transpiled ;;
            ret (TranspileSuccess transpiled)
        end
    end.

(** What the transpiler answers when [maybeTranspile] reaches it from state
    [s]: by then the digest was computed and the cache was consulted. *)
Definition transpilerAnswer (s : St) (code : string) : TranspileCodeReply :=
  transpileCode
    (TranspileCacheGet (hexDigestMd5 code) :: Md5 code :: trace s) code.

(** index.ts:149 *)
Definition tryReadScriptAsString (filePath : string) : Run TryReadResult :=
  settled <- awaitReadFile filePath ;;
  match settled with
  | ReadFileRejects readError =>
      if hasCode readError "ENOENT" then
        ret (ReadFailure
               (createReadError FILE_NOT_FOUND (message readError) readError))
      else
        ret (ReadFailure
               (createReadError IO_ERROR (message readError) readError))
  | ReadFileResolves content =>
      result <- maybeTranspile filePath content ;;
      match result with
      | TranspileError transpileError =>
          ret (ReadFailure
                 (createReadError IO_ERROR
                    ("failed to transpile code of " ++ JsString.quoted filePath)
                    transpileError))
      | TranspileSuccess transpiled => ret (ReadContent transpiled)
      end
  end.

(** index.ts:200 *)
Definition analyzeCode (code : string) : Run (CodeAnalyzeReply ICodeAnalyzeResult) :=
  hash <- md5 code ;;
  cached <- analyzeCacheGet hash ;;
  match cached with
  | Some cachedValue => ret (AnalyzeResult cachedValue)
  | None =>
      analyzeResult <- callDefaultCodeAnalyzer code ;;
      match analyzeResult with
      | AnalyzeError error => ret (AnalyzeError error)
      | AnalyzeResult result =>
          analyzeCacheSet hash result ;;
          ret analyzeResult
      end
  end.

(** What the analyzer answers when [analyzeCode] reaches it from state [s]. *)
Definition analyzerAnswer (s : St) (code : string)
  : CodeAnalyzeReply ICodeAnalyzeResult :=
  defaultCodeAnalyzer
    (AnalyzeCacheGet (hexDigestMd5 code) :: Md5 code :: trace s) code.

(** The arguments of [expressRouter]; [None] is an omitted argument. *)
Record Options := mkOptions {
  optBaseFolder : string;
  optFileEndings : option (list string);
  optMaxAnalyzeCacheSize : option N;
  optMaxTranspileCacheSize : option N;
  optResolveImportPath : option (string -> string -> ImportResolution)
}.

(** A destructured parameter with a default value. *)
Definition orDefault {A : Type} (o : option A) (d : A) : A :=
  match o with
  | Some a => a
  | None => d
  end.

(** What [expressRouter] builds: the configuration its closures capture and
    the state they start from. *)
Record Router := mkRouter {
  baseFolder : string;
  fileEndings : list string;
  resolveImportPath : string -> string -> ImportResolution;
  initialState : St
}.

(** index.ts:67 *)
Definition expressRouter (o : Options) : Router :=
  let fileEndings := orDefault (optFileEndings o) [".js"; ".ts"]%string in
  let maxAnalyzeCacheSize := orDefault (optMaxAnalyzeCacheSize o) (1 * 1024 * 1024)%N in
  let maxTranspileCacheSize := orDefault (optMaxTranspileCacheSize o) (64 * 1024 * 1024)%N in
  let resolveImportPath := orDefault (optResolveImportPath o) defaultResolveImportPath in
  mkRouter (optBaseFolder o) fileEndings resolveImportPath
    (mkState (LRUCache.create maxTranspileCacheSize transpileSize)
             (LRUCache.create maxAnalyzeCacheSize analyzeSize)
             []).

(** index.ts:231 *)
Definition isScript (fileEndings : list string) (req : Request) : bool :=
  existsb (fun ending => JsString.endsWith (url req) ending) fileEndings.

(** index.ts:225, the first middleware. *)
Definition scriptMiddleware (fileEndings : list string) (req : Request)
  : Completion Middleware :=
  if String.eqb (method req) "HEAD" then
    Abrupt (JsError "HEAD not supported yet")
  else if isScript fileEndings req then
    Normal (Handled (url req))
  else
    Normal Next.

(** The router's stack: the first middleware, then [express.static]. *)
Definition route (r : Router) (req : Request) : Completion Routed :=
  match scriptMiddleware (fileEndings r) req with
  | Abrupt e => Abrupt e
  | Normal (Handled uri) => Normal (HandleRequest uri)
  | Normal Next => Normal (ExpressStatic (baseFolder r) req)
  end.

(** The callbacks the debug core may invoke, run one after the other. *)
Inductive Call : Type :=
| CallTryReadScriptAsString (filePath : string)
| CallMaybeTranspile (filePath code : string)
| CallAnalyzeCode (code : string).

Definition step (s : St) (c : Call) : St :=
  match c with
  | CallTryReadScriptAsString filePath => snd (tryReadScriptAsString filePath s)
  | CallMaybeTranspile filePath code => snd (maybeTranspile filePath code s)
  | CallAnalyzeCode code => snd (analyzeCode code s)
  end.

Definition run (cs : list Call) (s : St) : St := fold_left step cs s.

(** The invariant of section 3 on both caches of a state. *)
Definition budgeted (s : St) : Prop :=
  LRUCache.wf (transpileCache s) /\
  LRUCache.sizeCalculation (transpileCache s) = transpileSize /\
  LRUCache.wf (analyzeCache s) /\
  LRUCache.sizeCalculation (analyzeCache s) = analyzeSize.

(** Two states whose caches have the same budgets. *)
Definition sameBudgets (s s' : St) : Prop :=
  LRUCache.maxSize (transpileCache s') = LRUCache.maxSize (transpileCache s) /\
  LRUCache.maxSize (analyzeCache s') = LRUCache.maxSize (analyzeCache s).

(** ** The callbacks handed to [server.handleRequest] *)

(** What the debug core reports back: it calls exactly one of the four
    callbacks. *)
Inductive CoreOutcome : Type :=
| CoreRedirect (uri : string)
| CoreContent (contentType content : string)
| CoreFileNotFound
| CoreInternalError (error : Error).

(** What a callback does, in order: calls on [res], and [console.error]. *)
Inductive Effect : Type :=
| ResRedirect (location : string)
| ResWriteHead (status : N) (contentTypeHeader : string)
| ResStatus (status : N)
| ResEnd (body : string)
| ConsoleError (error : Error).

(** index.ts:237 *)
Definition handleRedirect (req : Request) (uri : string) : list Effect :=
  let redirectLocation := (baseUrl req ++ uri)%string in
  [ResRedirect redirectLocation].

(** index.ts:242 *)
Definition handleContent (contentType content : string) : list Effect :=
  [ResWriteHead 200 contentType; ResEnd content].

(** index.ts:249 *)
Definition handleFileNotFound : list Effect :=
  [ResStatus 404; ResEnd "not found"].

(** index.ts:253 *)
Definition handleInternalError (error : Error) : list Effect :=
  [ConsoleError error; ResStatus 500; ResEnd "internal server error"].

(** The callback the debug core picks for its outcome. *)
Definition respond (req : Request) (outcome : CoreOutcome) : list Effect :=
  match outcome with
  | CoreRedirect uri => handleRedirect req uri
  | CoreContent contentType content => handleContent contentType content
  | CoreFileNotFound => handleFileNotFound
  | CoreInternalError error => handleInternalError error
  end.

(** What reaches the client: the calls on [res]. *)
Fixpoint sentToClient (effects : list Effect) : list Effect :=
  match effects with
  | [] => []
  | ConsoleError _ :: rest => sentToClient rest
  | e :: rest => e :: sentToClient rest
  end.

(** The effects that send the response off: [res.redirect] and [res.end]. *)
Definition endsResponse (e : Effect) : bool :=
  match e with
  | ResRedirect _ | ResEnd _ => true
  | _ => false
  end.

(** ** bin/wurzel.ts *)

(** wurzel.ts:11, the router of the command line tool: every option but the
    base folder is left out. *)
Definition wurzelCli (rootFolder : string) : Router :=
  expressRouter (mkOptions rootFolder None None None None).

(** ** The older copy of the module (src/unnamed/part_000)

    Its [maybeTranspile], [analyzeCode], caches and middleware are those of
    index.ts, statement for statement; [tryReadScriptAsString] and
    [resolveImportPath] differ and are modelled here. *)

(** part_000:117, the read error as an object literal [{ code, message }]. *)
Record Part000ReadError := mkPart000ReadError {
  part000Code : ETryReadErrorCode;
  part000Message : string
}.

Inductive Part000TryReadResult : Type :=
| Part000Failure (error : Part000ReadError)
| Part000Content (content : string).

(** part_000:107.  The first component of the result is what the call wrote
    with [console.error]. *)
Definition part000_tryReadScriptAsString (filePath : string)
  : Run (list Error * Part000TryReadResult) :=
  settled <- awaitReadFile filePath ;;
  match settled with
  | ReadFileRejects readError =>
      if hasCode readError "ENOENT" then
        ret ([], Part000Failure (mkPart000ReadError FILE_NOT_FOUND (message readError)))
      else
        ret ([], Part000Failure (mkPart000ReadError IO_ERROR (message readError)))
  | ReadFileResolves content =>
      result <- maybeTranspile filePath content ;;
      match result with
      | TranspileError transpileError =>
          ret ([transpileError],
               Part000Failure (mkPart000ReadError IO_ERROR (message transpileError)))
      | TranspileSuccess transpiled => ret ([], Part000Content transpiled)
      end
  end.


(** ** [maybeTranspile] around its [await]

    An async function runs up to its first [await] when it is called, and
    the rest when the awaited promise settles; other calls may run in
    between.  [maybeTranspile] has one [await], at index.ts:125. *)

(** Where a call of [maybeTranspile] stands once it has run up to the
    [await]: it has returned already, or it waits for the transpiler, whose
    reply it will get. *)
Inductive Suspended : Type :=
| Returned (result : TTranspileResult)
| AwaitingTranspileCode (hash : string) (reply : TranspileCodeReply).

(** index.ts:105 to index.ts:125, up to the [await]. *)
Definition maybeTranspileStart (filePath code : string) : Run Suspended :=
  if isNative filePath then ret (Returned (TranspileSuccess code))
  else
    hash <- md5 code ;;
    cached <- transpileCacheGet hash ;;
    match cached with
    | Some cachedValue => ret (Returned (TranspileSuccess cachedValue))
    | None =>
        reply <- awaitTranspileCode code ;;
        ret (AwaitingTranspileCode hash reply)
    end.

(** index.ts:126 to index.ts:142, from the [await] on. *)
Definition maybeTranspileResume (suspended : Suspended) : Run TTranspileResult :=
  match suspended with
  | Returned result => ret result
  | AwaitingTranspileCode hash reply =>
      match reply with
      | TranspileCodeThrows ex => ret (TranspileError ex)
      | TranspileCodeReturns None =>
          throw (JsError "BUG: transpiled code is undefined")
      | TranspileCodeReturns (Some transpiled) =>
          transpileCacheSet hash transpiled ;;
          ret (TranspileSuccess transpiled)
      end
  end.

(** Two calls that overlap: both run up to their [await] before either gets
    the transpiler's reply; the first one called is resumed first.  Each call
    ends on its own, so the result holds the two outcomes. *)
Definition maybeTranspileOverlapped (filePathA filePathB code : string)
  : Run (Completion TTranspileResult * Completion TTranspileResult) :=
  suspendedA <- maybeTranspileStart filePathA code ;;
  suspendedB <- maybeTranspileStart filePathB code ;;
  fun s =>
    let (outcomeA, s') := maybeTranspileResume suspendedA s in
    let (outcomeB, s'') := maybeTranspileResume suspendedB s' in
    (Normal (outcomeA, outcomeB), s'').

(** ** Notions used to state properties of runs *)

(** The paths handed to [readFile], newest first. *)
Fixpoint fileReads (tr : list Event) : list string :=
  match tr with
  | [] => []
  | ReadFile p :: tr' => p :: fileReads tr'
  | _ :: tr' => fileReads tr'
  end.

(** A transpile cache entry that the transpiler produced: its key is the
    digest of a content the transpiler was called with, and its value is what
    the transpiler returned for that content. *)
Definition transpiledEarlier (s : St) (e : LRUCache.Entry string) : Prop :=
  exists tr code,
    In (TranspileCode code) (trace s) /\
    LRUCache.key e = hexDigestMd5 code /\
    transpileCode tr code = TranspileCodeReturns (Some (LRUCache.value e)).

(** The same for an analysis cache entry. *)
Definition analyzedEarlier (s : St) (e : LRUCache.Entry ICodeAnalyzeResult) : Prop :=
  exists tr code,
    In (DefaultCodeAnalyzer code) (trace s) /\
    LRUCache.key e = hexDigestMd5 code /\
    defaultCodeAnalyzer tr code = AnalyzeResult (LRUCache.value e).

(** Both caches hold nothing but what the collaborators produced. *)
Definition cachesSound (s : St) : Prop :=
  (forall e, In e (LRUCache.entries (transpileCache s)) -> transpiledEarlier s e) /\
  (forall e, In e (LRUCache.entries (analyzeCache s)) -> analyzedEarlier s e).

(** No content transpiled so far collides with [code] under the digest. *)
Definition noTranspileCollision (s : St) (code : string) : Prop :=
  forall c, In (TranspileCode c) (trace s) ->
            hexDigestMd5 c = hexDigestMd5 code -> c = code.

(** No content analyzed so far collides with [code] under the digest. *)
Definition noAnalyzeCollision (s : St) (code : string) : Prop :=
  forall c, In (DefaultCodeAnalyzer c) (trace s) ->
            hexDigestMd5 c = hexDigestMd5 code -> c = code.

(** * Part II: facts about the program *)

(** ** JavaScript strings *)

Lemma endsWith_iff (s e : string) :
  JsString.endsWith s e = true <-> exists p, s = (p ++ e)%string.
Proof.
  induction s as [|c s IH]; cbn [JsString.endsWith].
  - rewrite orb_false_r, String.eqb_eq. split.
    + intros <-. now exists EmptyString.
    + intros [p Hp]. destruct p; simpl in Hp; [easy | discriminate].
  - rewrite orb_true_iff, String.eqb_eq, IH. split.
    + intros [<- | [p ->]].
      * now exists EmptyString.
      * now exists (String c p).
    + intros [[|c' p] Hp]; simpl in Hp.
      * now left.
      * right. exists p. now injection Hp.
Qed.

Lemma startsWith_iff (s p : string) :
  JsString.startsWith s p = true <-> exists r, s = (p ++ r)%string.
Proof.
  unfold JsString.startsWith. revert s.
  induction p as [|c p IH]; intros s.
  - split; [now exists s | now destruct s].
  - destruct s as [|d s]; cbn [prefix].
    + split; [discriminate | now intros [r Hr]].
    + destruct (Ascii.ascii_dec c d) as [->|Hne].
      * rewrite IH. split; intros [r Hr]; exists r; [now subst | now injection Hr].
      * split; [discriminate | intros [r Hr]; injection Hr; congruence].
Qed.

(** ** The LRU cache *)

Section CacheFacts.
Variable V : Type.
Implicit Types (es gone kept : list (LRUCache.Entry V)) (c : LRUCache.t V).
Implicit Types (k : string) (e : LRUCache.Entry V) (room : N).

Import LRUCache.

Ltac case_key :=
  match goal with
  | |- context [String.eqb ?a ?b] => destruct (String.eqb_spec a b); subst
  | H : context [String.eqb ?a ?b] |- _ => destruct (String.eqb_spec a b); subst
  end.

Lemma withEntries_same c : withEntries c (entries c) = c.
Proof. now destruct c. Qed.

Lemma calculatedSize_app es es' :
  calculatedSize (es ++ es') = (calculatedSize es + calculatedSize es')%N.
Proof. induction es as [|e es IH]; simpl; [reflexivity | rewrite IH; lia]. Qed.

Lemma find_key k es e : find k es = Some e -> key e = k /\ In e es.
Proof.
  induction es as [|x es IH]; simpl; [discriminate|].
  case_key.
  - intros [= ->]. auto.
  - intros H. destruct (IH H). auto.
Qed.

Lemma find_none_keys k es : find k es = None <-> ~ In k (map key es).
Proof.
  induction es as [|x es IH]; simpl.
  - split; [intros _ [] | reflexivity].
  - case_key.
    + split; [discriminate | intros H; destruct H; now left].
    + rewrite IH. split.
      * intros H [Hx|Hin]; [contradiction | now apply H].
      * intros H Hin. apply H. now right.
Qed.

Lemma find_app k es es' :
  find k (es ++ es') =
  match find k es with
  | Some e => Some e
  | None => find k es'
  end.
Proof. induction es as [|x es IH]; simpl; [reflexivity | now case_key]. Qed.

Lemma keys_remove k k' es :
  In k' (map key (remove k es)) <-> k' <> k /\ In k' (map key es).
Proof.
  induction es as [|x es IH]; simpl.
  - split; [intros [] | intros [_ []]].
  - case_key; simpl; rewrite IH.
    + split; intros [H1 H2]; split; auto.
      destruct H2 as [H2|H2]; [congruence | exact H2].
    + split.
      * intros [H|[H1 H2]]; [split; [congruence | now left] | split; [exact H1 | now right]].
      * intros [H1 [H|H]]; [now left | right; now split].
Qed.

Lemma find_remove_same k es : find k (remove k es) = None.
Proof. apply find_none_keys. rewrite keys_remove. intros [H _]. now apply H. Qed.

Lemma find_remove_other k k' es : k' <> k -> find k' (remove k es) = find k' es.
Proof.
  intros Hne. induction es as [|x es IH]; simpl; [reflexivity|].
  case_key; simpl.
  - rewrite IH. case_key; [congruence | reflexivity].
  - now rewrite IH.
Qed.

Lemma remove_absent k es : find k es = None -> remove k es = es.
Proof.
  induction es as [|x es IH]; simpl; [reflexivity|].
  case_key; [discriminate|]. intros H. now rewrite IH.
Qed.

Lemma remove_app k es es' : remove k (es ++ es') = remove k es ++ remove k es'.
Proof.
  induction es as [|x es IH]; simpl; [reflexivity|].
  case_key; simpl; now rewrite IH.
Qed.

Lemma NoDup_keys_remove k es :
  NoDup (map key es) -> NoDup (map key (remove k es)).
Proof.
  induction es as [|x es IH]; simpl; [auto|].
  intros H. inversion H as [|? ? Hx Hes]; subst.
  case_key; auto. simpl. constructor; auto.
  rewrite keys_remove. intros [_ Hin]. contradiction.
Qed.

Lemma calculatedSize_remove k es :
  (calculatedSize (remove k es) <= calculatedSize es)%N.
Proof.
  induction es as [|x es IH]; simpl; [lia|]. case_key; simpl; lia.
Qed.

Lemma calculatedSize_remove_found k es e :
  find k es = Some e ->
  (size e + calculatedSize (remove k es) <= calculatedSize es)%N.
Proof.
  induction es as [|x es IH]; simpl; [discriminate|].
  case_key.
  - intros [= ->]. pose proof (calculatedSize_remove (key e) es). lia.
  - intros H. specialize (IH H). simpl. lia.
Qed.

Lemma Forall_remove (P : Entry V -> Prop) k es :
  Forall P es -> Forall P (remove k es).
Proof.
  induction 1 as [|x es Hx Hes IH]; simpl; [constructor|].
  case_key; auto.
Qed.

(** What [evict] keeps is a tail of the list: only least-recently-used
    entries go. *)
Lemma evict_suffix room es : exists gone, es = gone ++ evict room es.
Proof.
  induction es as [|x es [gone IH]]; [now exists []|].
  cbn [evict]. destruct (N.ltb_spec room (calculatedSize (x :: es))).
  - exists (x :: gone). simpl. now rewrite <- IH.
  - now exists [].
Qed.

(** What it keeps fits in the room left. *)
Lemma evict_fits room es : (calculatedSize (evict room es) <= room)%N.
Proof.
  induction es as [|x es IH]; [simpl; lia|].
  cbn [evict]. destruct (N.ltb_spec room (calculatedSize (x :: es))); auto.
Qed.

(** It stops as soon as the rest fits: every tail that fits is kept. *)
Lemma evict_longest room es gone kept :
  es = gone ++ kept -> (calculatedSize kept <= room)%N ->
  exists pre, evict room es = pre ++ kept.
Proof.
  revert gone. induction es as [|x es IH]; intros gone Hes Hfit.
  - destruct gone; [|discriminate]. simpl in Hes. subst. now exists [].
  - cbn [evict]. destruct (N.ltb_spec room (calculatedSize (x :: es))).
    + destruct gone as [|g gone]; simpl in Hes.
      * subst. lia.
      * injection Hes as _ Hes. eauto.
    + now exists gone.
Qed.

Lemma evict_noop room es : (calculatedSize es <= room)%N -> evict room es = es.
Proof.
  destruct es as [|x es]; [reflexivity|]. intros H. cbn [evict].
  destruct (N.ltb_spec room (calculatedSize (x :: es))); [lia | reflexivity].
Qed.

Lemma evict_keys room es k :
  In k (map key (evict room es)) -> In k (map key es).
Proof.
  destruct (evict_suffix room es) as [gone H]. intros Hin.
  rewrite H, map_app, in_app_iff. now right.
Qed.

Lemma NoDup_keys_evict room es :
  NoDup (map key es) -> NoDup (map key (evict room es)).
Proof.
  destruct (evict_suffix room es) as [gone H]. intros Hnd.
  rewrite H, map_app in Hnd. now apply NoDup_app_remove_l in Hnd.
Qed.

Lemma Forall_evict (P : Entry V -> Prop) room es :
  Forall P es -> Forall P (evict room es).
Proof.
  destruct (evict_suffix room es) as [gone H]. intros HP.
  rewrite H in HP. now apply Forall_app in HP.
Qed.

(** The most recently used entry is the last one to go. *)
Lemma evict_last room es e :
  evict room (es ++ [e]) = [] \/ exists kept, evict room (es ++ [e]) = kept ++ [e].
Proof.
  destruct (evict_suffix room (es ++ [e])) as [gone H].
  destruct (evict room (es ++ [e])) as [|y ys] eqn:E using rev_ind; [now left|].
  right. exists ys. rewrite app_assoc in H. apply app_inj_tail in H.
  now destruct H as [_ ->].
Qed.

End CacheFacts.

(** ** [get] and [set] on a cache *)

Section CacheOperations.
Variable V : Type.
Implicit Types (es : list (LRUCache.Entry V)) (c : LRUCache.t V).
Implicit Types (k : string) (v : V) (e : LRUCache.Entry V).

Import LRUCache.

Lemma wf_create (maxBytes : N) (f : V -> string -> N) : wf (create maxBytes f).
Proof.
  unfold wf, create, keys; simpl. repeat split; [constructor | lia | constructor].
Qed.

Lemma get_config k c :
  maxSize (snd (get k c)) = maxSize c /\
  sizeCalculation (snd (get k c)) = sizeCalculation c.
Proof. unfold get. now destruct (find k (entries c)). Qed.

Lemma set_config k v c :
  maxSize (set k v c) = maxSize c /\
  sizeCalculation (set k v c) = sizeCalculation c.
Proof.
  unfold set, delete.
  now destruct (maxSize c <? sizeCalculation c v k)%N.
Qed.

Lemma get_miss k c : find k (entries c) = None -> get k c = (None, c).
Proof. unfold get. now intros ->. Qed.

Lemma get_miss_iff k c : fst (get k c) = None <-> find k (entries c) = None.
Proof. unfold get. destruct (find k (entries c)); simpl; split; congruence. Qed.

(** A hit moves the entry to the most-recently-used end and leaves the other
    entries in their order. *)
Lemma get_hit k c e :
  find k (entries c) = Some e ->
  get k c = (Some (value e), withEntries c (remove k (entries c) ++ [e])).
Proof. unfold get. now intros ->. Qed.

(** A second [get] of the same key hits again and changes nothing more. *)
Lemma get_get k c v c' :
  get k c = (Some v, c') -> get k c' = (Some v, c').
Proof.
  unfold get. destruct (find k (entries c)) as [e|] eqn:E; [|discriminate].
  intros [= <- <-]. simpl.
  destruct (find_key _ _ E) as [Hk _].
  rewrite find_app, find_remove_same. simpl. rewrite Hk, String.eqb_refl.
  rewrite remove_app, (remove_absent _ _ (find_remove_same k (entries c))).
  simpl. rewrite Hk, String.eqb_refl, app_nil_r. reflexivity.
Qed.

Lemma get_wf k c : wf c -> wf (snd (get k c)).
Proof.
  unfold get. destruct (find k (entries c)) as [e|] eqn:E; [|easy].
  intros (Hnd & Hsz & Hall). unfold wf, keys in *. simpl.
  destruct (find_key _ _ E) as [Hk Hin].
  pose proof (calculatedSize_remove_found _ _ E) as Hle.
  repeat split.
  - rewrite map_app. simpl. apply NoDup_app; repeat split.
    + now apply NoDup_keys_remove.
    + constructor; [intros [] | constructor].
    + intros a Ha [<-|[]]. rewrite Hk in Ha. apply keys_remove in Ha.
      destruct Ha as [Ha _]. now apply Ha.
  - rewrite calculatedSize_app. simpl. lia.
  - apply Forall_app. split; [now apply Forall_remove|].
    constructor; [|constructor]. rewrite Forall_forall in Hall. now apply Hall.
Qed.

Lemma set_wf k v c : wf c -> wf (set k v c).
Proof.
  intros (Hnd & Hsz & Hall). unfold set, delete, wf, keys in *.
  destruct (N.ltb_spec (maxSize c) (sizeCalculation c v k)) as [Hbig|Hfit]; simpl.
  - repeat split.
    + now apply NoDup_keys_remove.
    + pose proof (calculatedSize_remove k (entries c)). lia.
    + now apply Forall_remove.
  - repeat split.
    + rewrite map_app. simpl. apply NoDup_app; repeat split.
      * now apply NoDup_keys_evict, NoDup_keys_remove.
      * constructor; [intros [] | constructor].
      * intros a Ha [<-|[]]. apply evict_keys, keys_remove in Ha.
        destruct Ha as [Ha _]. now apply Ha.
    + rewrite calculatedSize_app. simpl.
      pose proof (evict_fits (maxSize c - sizeCalculation c v k)
                    (remove k (entries c))). lia.
    + apply Forall_app. split.
      * now apply Forall_evict, Forall_remove.
      * constructor; [reflexivity | constructor].
Qed.

(** An entry that fits the budget is there right after it was stored. *)
Lemma get_set k v c :
  (sizeCalculation c v k <= maxSize c)%N ->
  get k (set k v c) = (Some v, set k v c).
Proof.
  intros Hfit. unfold set.
  destruct (N.ltb_spec (maxSize c) (sizeCalculation c v k)) as [Hbig|_]; [lia|].
  set (kept := evict _ _).
  assert (Hk : find k kept = None).
  { apply find_none_keys. intros Hin. apply evict_keys, keys_remove in Hin.
    destruct Hin as [Hin _]. now apply Hin. }
  unfold get, withEntries. simpl.
  rewrite find_app, Hk. simpl. rewrite String.eqb_refl. simpl.
  rewrite remove_app, (remove_absent _ _ Hk). simpl.
  rewrite String.eqb_refl, app_nil_r. reflexivity.
Qed.

(** An entry larger than the whole budget is not retained. *)
Lemma get_set_oversize k v c :
  (maxSize c < sizeCalculation c v k)%N ->
  get k (set k v c) = (None, delete k c).
Proof.
  intros Hbig. unfold set.
  destruct (N.ltb_spec (maxSize c) (sizeCalculation c v k)) as [_|Hfit]; [|lia].
  apply get_miss. simpl. apply find_remove_same.
Qed.

(** Storing over a miss evicts from the least-recently-used end only, and
    no more than the new entry needs. *)
Lemma set_evicts_lru k v c :
  (sizeCalculation c v k <= maxSize c)%N ->
  exists gone kept,
    remove k (entries c) = gone ++ kept /\
    entries (set k v c) = kept ++ [mkEntry k v (sizeCalculation c v k)] /\
    forall gone' kept',
      remove k (entries c) = gone' ++ kept' ->
      (calculatedSize kept' + sizeCalculation c v k <= maxSize c)%N ->
      exists pre, kept = pre ++ kept'.
Proof.
  intros Hfit. unfold set.
  destruct (N.ltb_spec (maxSize c) (sizeCalculation c v k)) as [Hbig|_]; [lia|].
  destruct (evict_suffix (maxSize c - sizeCalculation c v k) (remove k (entries c)))
    as [gone Hgone].
  exists gone, (evict (maxSize c - sizeCalculation c v k) (remove k (entries c))).
  repeat split; auto.
  intros gone' kept' Hsplit Hroom.
  eapply evict_longest; [exact Hsplit | lia].
Qed.

(** While any older entry survives a [set], so does the most recently used
    one. *)
Lemma set_keeps_mru k v c es e :
  entries c = es ++ [e] -> key e <> k ->
  (sizeCalculation c v k <= maxSize c)%N ->
  find (key e) (entries (set k v c)) = None ->
  entries (set k v c) = [mkEntry k v (sizeCalculation c v k)].
Proof.
  intros Hes Hne Hfit. unfold set.
  destruct (N.ltb_spec (maxSize c) (sizeCalculation c v k)) as [Hbig|_]; [lia|].
  simpl. rewrite Hes, remove_app. simpl.
  destruct (String.eqb_spec (key e) k) as [|_]; [contradiction|].
  destruct (evict_last (maxSize c - sizeCalculation c v k) (remove k es) e)
    as [-> | [kept ->]]; [reflexivity|].
  rewrite !find_app. simpl. rewrite String.eqb_refl.
  destruct (find (key e) kept); discriminate.
Qed.

End CacheOperations.

(** ** [maybeTranspile], case by case *)

Import LRUCache.

Ltac run_closures :=
  unfold maybeTranspile, analyzeCode, tryReadScriptAsString, bind, ret, throw,
    md5, transpileCacheGet, transpileCacheSet, analyzeCacheGet, analyzeCacheSet,
    awaitTranspileCode, callDefaultCodeAnalyzer, awaitReadFile,
    transpilerAnswer, analyzerAnswer;
  cbn [transpileCache analyzeCache trace fst snd].

Lemma isNative_iff filePath :
  isNative filePath = true <->
  JsString.endsWith filePath ".js" = true \/ JsString.endsWith filePath ".mjs" = true.
Proof. unfold isNative. apply orb_true_iff. Qed.

Lemma maybeTranspile_native filePath code (s : St) :
  isNative filePath = true ->
  maybeTranspile filePath code s = (Normal (TranspileSuccess code), s).
Proof. intros H. unfold maybeTranspile. now rewrite H. Qed.

Lemma maybeTranspile_hit filePath code (s : St) e :
  isNative filePath = false ->
  find (hexDigestMd5 code) (entries (transpileCache s)) = Some e ->
  maybeTranspile filePath code s =
  (Normal (TranspileSuccess (value e)),
   mkState (withEntries (transpileCache s)
              (remove (hexDigestMd5 code) (entries (transpileCache s)) ++ [e]))
           (analyzeCache s)
           (TranspileCacheGet (hexDigestMd5 code) :: Md5 code :: trace s)).
Proof.
  intros Hn Hfind. run_closures. rewrite Hn, (get_hit _ _ Hfind). reflexivity.
Qed.

Lemma maybeTranspile_miss filePath code (s : St) :
  isNative filePath = false ->
  find (hexDigestMd5 code) (entries (transpileCache s)) = None ->
  maybeTranspile filePath code s =
  let called :=
    TranspileCode code :: TranspileCacheGet (hexDigestMd5 code) :: Md5 code :: trace s in
  match transpilerAnswer s code with
  | TranspileCodeThrows ex =>
      (Normal (TranspileError ex),
       mkState (transpileCache s) (analyzeCache s) called)
  | TranspileCodeReturns None =>
      (Abrupt (JsError "BUG: transpiled code is undefined"),
       mkState (transpileCache s) (analyzeCache s) called)
  | TranspileCodeReturns (Some transpiled) =>
      (Normal (TranspileSuccess transpiled),
       mkState (set (hexDigestMd5 code) transpiled (transpileCache s))
               (analyzeCache s)
               (TranspileCacheSet (hexDigestMd5 code) transpiled :: called))
  end.
Proof.
  intros Hn Hfind. run_closures. rewrite Hn, (get_miss _ _ Hfind).
  cbn [transpileCache analyzeCache trace].
  destruct (transpileCode _ code) as [ex|[t|]]; reflexivity.
Qed.

Lemma analyzeCode_hit code (s : St) e :
  find (hexDigestMd5 code) (entries (analyzeCache s)) = Some e ->
  analyzeCode code s =
  (Normal (AnalyzeResult (value e)),
   mkState (transpileCache s)
           (withEntries (analyzeCache s)
              (remove (hexDigestMd5 code) (entries (analyzeCache s)) ++ [e]))
           (AnalyzeCacheGet (hexDigestMd5 code) :: Md5 code :: trace s)).
Proof. intros Hfind. run_closures. rewrite (get_hit _ _ Hfind). reflexivity. Qed.

Lemma analyzeCode_miss code (s : St) :
  find (hexDigestMd5 code) (entries (analyzeCache s)) = None ->
  analyzeCode code s =
  let called :=
    DefaultCodeAnalyzer code :: AnalyzeCacheGet (hexDigestMd5 code) :: Md5 code :: trace s in
  match analyzerAnswer s code with
  | AnalyzeError error =>
      (Normal (AnalyzeError error),
       mkState (transpileCache s) (analyzeCache s) called)
  | AnalyzeResult result =>
      (Normal (AnalyzeResult result),
       mkState (transpileCache s)
               (set (hexDigestMd5 code) result (analyzeCache s))
               (AnalyzeCacheSet (hexDigestMd5 code) :: called))
  end.
Proof.
  intros Hfind. run_closures. rewrite (get_miss _ _ Hfind).
  cbn [transpileCache analyzeCache trace].
  destruct (defaultCodeAnalyzer _ code) as [err|res]; reflexivity.
Qed.

(** ** The budget invariant along a run *)

Lemma budgeted_initial (o : Options) : budgeted (initialState (expressRouter o)).
Proof.
  unfold budgeted, expressRouter.
  cbn [initialState transpileCache analyzeCache].
  split; [apply wf_create | split; [reflexivity | split; [apply wf_create | reflexivity]]].
Qed.

Lemma budgeted_update (s : St) (tc : LRUCache.t string)
      (ac : LRUCache.t ICodeAnalyzeResult) tr :
  budgeted s ->
  (tc = transpileCache s \/ (exists k, tc = snd (get k (transpileCache s))) \/
   exists k v, tc = set k v (transpileCache s)) ->
  (ac = analyzeCache s \/ (exists k, ac = snd (get k (analyzeCache s))) \/
   exists k v, ac = set k v (analyzeCache s)) ->
  budgeted (mkState tc ac tr).
Proof.
  intros (Ht & Hts & Ha & Has) Htc Hac. unfold budgeted; simpl.
  assert (wf tc /\ sizeCalculation tc = transpileSize) as [? ?].
  { destruct Htc as [-> | [[k ->] | (k & v & ->)]]; [now split | |].
    - split; [now apply get_wf | now rewrite (proj2 (get_config k _))].
    - split; [now apply set_wf | now rewrite (proj2 (set_config k v _))]. }
  assert (wf ac /\ sizeCalculation ac = analyzeSize) as [? ?].
  { destruct Hac as [-> | [[k ->] | (k & v & ->)]]; [now split | |].
    - split; [now apply get_wf | now rewrite (proj2 (get_config k _))].
    - split; [now apply set_wf | now rewrite (proj2 (set_config k v _))]. }
  split; [assumption | split; [assumption | split; assumption]].
Qed.

Lemma maybeTranspile_budgeted filePath code (s : St) :
  budgeted s -> budgeted (snd (maybeTranspile filePath code s)).
Proof.
  intros Hb. destruct (isNative filePath) eqn:Hn.
  - now rewrite maybeTranspile_native.
  - destruct (find (hexDigestMd5 code) (entries (transpileCache s))) as [e|] eqn:E.
    + rewrite (maybeTranspile_hit _ _ _ Hn E). simpl.
      apply budgeted_update with (s := s); auto. right; left. exists (hexDigestMd5 code).
      now rewrite (get_hit _ _ E).
    + rewrite (maybeTranspile_miss _ _ _ Hn E). simpl.
      destruct (transpilerAnswer s code) as [ex|[t|]]; simpl;
        apply budgeted_update with (s := s); eauto.
Qed.

Lemma analyzeCode_budgeted code (s : St) :
  budgeted s -> budgeted (snd (analyzeCode code s)).
Proof.
  intros Hb.
  destruct (find (hexDigestMd5 code) (entries (analyzeCache s))) as [e|] eqn:E.
  - rewrite (analyzeCode_hit _ _ E). simpl.
    apply budgeted_update with (s := s); auto. right; left. exists (hexDigestMd5 code).
    now rewrite (get_hit _ _ E).
  - rewrite (analyzeCode_miss _ _ E). simpl.
    destruct (analyzerAnswer s code) as [err|res]; simpl;
      apply budgeted_update with (s := s); eauto.
Qed.

Lemma awaitReadFile_state filePath (s : St) :
  awaitReadFile filePath s =
  (Normal (readFile (trace s) filePath),
   mkState (transpileCache s) (analyzeCache s) (ReadFile filePath :: trace s)).
Proof. reflexivity. Qed.

Lemma tryReadScriptAsString_budgeted filePath (s : St) :
  budgeted s -> budgeted (snd (tryReadScriptAsString filePath s)).
Proof.
  intros Hb. unfold tryReadScriptAsString, bind. rewrite awaitReadFile_state.
  set (s1 := mkState _ _ _).
  assert (Hb1 : budgeted s1) by (apply budgeted_update with (s := s); auto).
  destruct (readFile (trace s) filePath) as [err|content].
  - now destruct (hasCode err "ENOENT").
  - pose proof (maybeTranspile_budgeted filePath content Hb1) as Hb2.
    destruct (maybeTranspile filePath content s1) as [[[ex|t]|e] s2]; exact Hb2.
Qed.

Lemma step_budgeted (s : St) (c : Call) : budgeted s -> budgeted (step s c).
Proof.
  destruct c; simpl;
    auto using tryReadScriptAsString_budgeted, maybeTranspile_budgeted,
               analyzeCode_budgeted.
Qed.

Lemma run_budgeted (cs : list Call) (s : St) : budgeted s -> budgeted (run cs s).
Proof.
  unfold run. revert s. induction cs as [|c cs IH]; simpl; auto using step_budgeted.
Qed.

(** No closure changes the budget a cache was created with. *)

Lemma maybeTranspile_budgets filePath code (s : St) :
  sameBudgets s (snd (maybeTranspile filePath code s)).
Proof.
  unfold sameBudgets. run_closures. destruct (isNative filePath); [easy|]. simpl.
  pose proof (get_config (hexDigestMd5 code) (transpileCache s)) as [Hm _].
  destruct (get (hexDigestMd5 code) (transpileCache s)) as [[v|] c]; simpl in *;
    [easy|].
  destruct (transpileCode _ code) as [ex|[t|]]; simpl; try easy.
  now rewrite (proj1 (set_config _ _ _)).
Qed.

Lemma analyzeCode_budgets code (s : St) :
  sameBudgets s (snd (analyzeCode code s)).
Proof.
  unfold sameBudgets. run_closures.
  pose proof (get_config (hexDigestMd5 code) (analyzeCache s)) as [Hm _].
  destruct (get (hexDigestMd5 code) (analyzeCache s)) as [[v|] c]; simpl in *;
    [easy|].
  destruct (defaultCodeAnalyzer _ code) as [err|res]; simpl; try easy.
  now rewrite (proj1 (set_config _ _ _)).
Qed.

Lemma step_budgets (s : St) (c : Call) : sameBudgets s (step s c).
Proof.
  destruct c; simpl; auto using maybeTranspile_budgets, analyzeCode_budgets.
  unfold tryReadScriptAsString, bind. rewrite awaitReadFile_state.
  set (s1 := mkState _ _ _).
  destruct (readFile (trace s) filePath) as [err|content].
  - now destruct (hasCode err "ENOENT").
  - pose proof (maybeTranspile_budgets filePath content s1) as Hb.
    destruct (maybeTranspile filePath content s1) as [[[ex|t]|e] s2]; exact Hb.
Qed.

Lemma run_budgets (cs : list Call) (s : St) : sameBudgets s (run cs s).
Proof.
  unfold run. revert s. induction cs as [|c cs IH]; intros s; simpl.
  - now split.
  - destruct (step_budgets s c) as [H1 H2], (IH (step s c)) as [H3 H4].
    split; congruence.
Qed.

(** ** A second call with the same content *)

Lemma transpilerCalls_skip (ev : Event) (tr : list Event) :
  (forall c, ev <> TranspileCode c) ->
  transpilerCalls (ev :: tr) = transpilerCalls tr.
Proof. destruct ev; simpl; auto. intros H. now destruct (H code0). Qed.

Lemma maybeTranspile_cached filePath code (s : St) v c' :
  isNative filePath = false ->
  get (hexDigestMd5 code) (transpileCache s) = (Some v, c') ->
  maybeTranspile filePath code s =
  (Normal (TranspileSuccess v),
   mkState c' (analyzeCache s)
           (TranspileCacheGet (hexDigestMd5 code) :: Md5 code :: trace s)).
Proof. intros Hn Hget. run_closures. now rewrite Hn, Hget. Qed.

(** After a call that returned [transpiled] and whose entry fits the budget,
    the digest of the content is in the cache with that value, and a [get]
    of it leaves the cache as it is. *)
Lemma maybeTranspile_leaves_entry filePath code (s s1 : St) transpiled :
  isNative filePath = false ->
  maybeTranspile filePath code s = (Normal (TranspileSuccess transpiled), s1) ->
  (sizeCalculation (transpileCache s) transpiled (hexDigestMd5 code)
   <= maxSize (transpileCache s))%N ->
  get (hexDigestMd5 code) (transpileCache s1) = (Some transpiled, transpileCache s1) /\
  analyzeCache s1 = analyzeCache s /\
  (List.length (transpilerCalls (trace s1))
   <= 1 + List.length (transpilerCalls (trace s)))%nat.
Proof.
  intros Hn Hcall Hfit.
  destruct (find (hexDigestMd5 code) (entries (transpileCache s))) as [e|] eqn:E.
  - rewrite (maybeTranspile_hit _ _ _ Hn E) in Hcall.
    injection Hcall as <- <-. simpl. repeat split; [|lia].
    apply get_get with (c := transpileCache s). now apply get_hit.
  - rewrite (maybeTranspile_miss _ _ _ Hn E) in Hcall. cbv zeta in Hcall.
    destruct (transpilerAnswer s code) as [ex|[t|]]; try discriminate.
    injection Hcall as <- <-. simpl. repeat split; [|lia].
    now apply get_set.
Qed.

Lemma maybeTranspile_again filePath filePath' code (s s1 : St) transpiled :
  isNative filePath = false -> isNative filePath' = false ->
  maybeTranspile filePath code s = (Normal (TranspileSuccess transpiled), s1) ->
  (sizeCalculation (transpileCache s) transpiled (hexDigestMd5 code)
   <= maxSize (transpileCache s))%N ->
  exists s2,
    maybeTranspile filePath' code s1 = (Normal (TranspileSuccess transpiled), s2) /\
    transpileCache s2 = transpileCache s1 /\
    transpilerCalls (trace s2) = transpilerCalls (trace s1) /\
    (List.length (transpilerCalls (trace s2))
     <= 1 + List.length (transpilerCalls (trace s)))%nat.
Proof.
  intros Hn Hn' Hcall Hfit.
  destruct (maybeTranspile_leaves_entry _ _ _ Hn Hcall Hfit) as (Hget & _ & Hlen).
  eexists. split; [apply (maybeTranspile_cached _ _ _ Hn' Hget)|].
  simpl. auto.
Qed.

(** The entries stored under one key. *)
Lemma filter_key_absent (V : Type) (k : string) (es : list (Entry V)) :
  find k es = None -> filter (fun e => String.eqb (key e) k) es = [].
Proof.
  induction es as [|x es IH]; simpl; [reflexivity|].
  destruct (String.eqb (key x) k); [discriminate | exact IH].
Qed.

Lemma get_single_entry (V : Type) (k : string) (c : LRUCache.t V) (v : V) :
  get k c = (Some v, c) ->
  exists e, filter (fun e => String.eqb (key e) k) (entries c) = [e] /\
            key e = k /\ value e = v.
Proof.
  unfold get. destruct (find k (entries c)) as [e|] eqn:E; [|discriminate].
  intros H. injection H as Hv Hc. exists e.
  destruct (find_key _ _ E) as [Hk _].
  rewrite <- Hc at 1. simpl. rewrite filter_app. simpl.
  rewrite Hk, String.eqb_refl.
  rewrite (filter_key_absent _ _ (find_remove_same k (entries c))). auto.
Qed.

(** * Part III: the properties of the specification *)

(** C1 (as amended).  For a path that ends in neither .js nor .mjs: when a
    call of [maybeTranspile] on content [code] returned a transpiled string
    whose cache entry (digest length plus string length) fits the transpile
    budget, the call that follows it on the same content returns the same
    string and does not invoke the external transpiler, so that the two calls
    together invoke it at most once. *)
Theorem maybeTranspile_twice (filePath code : string) (s s1 : St) (transpiled : string) :
  budgeted s ->
  isNative filePath = false ->
  maybeTranspile filePath code s = (Normal (TranspileSuccess transpiled), s1) ->
  (JsString.length (hexDigestMd5 code) + JsString.length transpiled
   <= maxSize (transpileCache s))%N ->
  exists s2,
    maybeTranspile filePath code s1 = (Normal (TranspileSuccess transpiled), s2) /\
    transpilerCalls (trace s2) = transpilerCalls (trace s1) /\
    (List.length (transpilerCalls (trace s2))
     <= 1 + List.length (transpilerCalls (trace s)))%nat.
Proof.
  intros (_ & Hsize & _) Hn Hcall Hfit.
  destruct (maybeTranspile_again filePath filePath code s Hn Hn Hcall)
    as (s2 & H2 & _ & Hsame & Hlen).
  - now rewrite Hsize.
  - now exists s2.
Qed.

(** C2.  For a path ending in .js or .mjs, [maybeTranspile] returns the code
    unchanged and leaves the state as it was: the trace gains no digest, no
    cache access and no transpiler call, and the caches are untouched. *)
Theorem maybeTranspile_native_passthrough (filePath code : string) (s : St) :
  JsString.endsWith filePath ".js" = true \/ JsString.endsWith filePath ".mjs" = true ->
  maybeTranspile filePath code s = (Normal (TranspileSuccess code), s).
Proof. intros H. apply maybeTranspile_native. now apply isNative_iff. Qed.

(** C3.  A transpiler failure is returned as [{ error }] and leaves the
    transpile cache as it was, and the next call with the same content calls
    the transpiler again; likewise for the analyzer and the analysis cache. *)
Theorem failures_are_not_cached (filePath filePath' code : string) (s : St) :
  (forall ex,
      isNative filePath = false -> isNative filePath' = false ->
      find (hexDigestMd5 code) (entries (transpileCache s)) = None ->
      transpilerAnswer s code = TranspileCodeThrows ex ->
      exists s1,
        maybeTranspile filePath code s = (Normal (TranspileError ex), s1) /\
        transpileCache s1 = transpileCache s /\
        transpilerCalls (trace s1) = code :: transpilerCalls (trace s) /\
        transpilerCalls (trace (snd (maybeTranspile filePath' code s1)))
        = code :: transpilerCalls (trace s1)) /\
  (forall error,
      find (hexDigestMd5 code) (entries (analyzeCache s)) = None ->
      analyzerAnswer s code = AnalyzeError error ->
      exists s1,
        analyzeCode code s = (Normal (AnalyzeError error), s1) /\
        analyzeCache s1 = analyzeCache s /\
        analyzerCalls (trace s1) = code :: analyzerCalls (trace s) /\
        analyzerCalls (trace (snd (analyzeCode code s1)))
        = code :: analyzerCalls (trace s1)).
Proof.
  split.
  - intros ex Hn Hn' Hmiss Hthrows.
    rewrite (maybeTranspile_miss _ _ _ Hn Hmiss), Hthrows. cbv zeta.
    set (s1 := mkState _ _ _).
    exists s1. repeat (split; [reflexivity|]).
    rewrite (maybeTranspile_miss filePath' code s1 Hn' Hmiss). cbv zeta.
    destruct (transpilerAnswer s1 code) as [ex'|[t|]]; reflexivity.
  - intros error Hmiss Herr.
    rewrite (analyzeCode_miss _ _ Hmiss), Herr. cbv zeta.
    set (s1 := mkState _ _ _).
    exists s1. repeat (split; [reflexivity|]).
    rewrite (analyzeCode_miss code s1 Hmiss). cbv zeta.
    destruct (analyzerAnswer s1 code) as [err|res]; reflexivity.
Qed.

(** C4.  [defaultResolveImportPath] hands a throw of the resolution on
    verbatim as [{ error }]; it answers a resolved URL that starts with
    [node:], or that does not start with [file:], with an error naming the
    unsupported target; and it answers a [file:] URL with the file system
    path [fileURLToPath] gives for it. *)
Theorem defaultResolveImportPath_policy (importer specifier : string) :
  match resolveImport specifier (pathToFileURL importer) with
  | ResolveImportThrows error =>
      defaultResolveImportPath importer specifier = ImportError error
  | ResolveImportReturns resolvedUrl =>
      (JsString.startsWith resolvedUrl "node:" = true ->
       defaultResolveImportPath importer specifier =
       ImportError (JsError ("node imports are not supported, got "
                             ++ JsString.quoted resolvedUrl))) /\
      (JsString.startsWith resolvedUrl "node:" = false ->
       JsString.startsWith resolvedUrl "file:" = false ->
       defaultResolveImportPath importer specifier =
       ImportError (JsError ("only file imports are supported, got "
                             ++ JsString.quoted resolvedUrl))) /\
      (JsString.startsWith resolvedUrl "file:" = true ->
       defaultResolveImportPath importer specifier =
       ImportFilePath (fileURLToPath resolvedUrl))
  end.
Proof.
  unfold defaultResolveImportPath.
  destruct (resolveImport specifier (pathToFileURL importer)) as [error|u];
    [reflexivity|].
  repeat split.
  - now intros ->.
  - now intros -> ->.
  - intros Hfile. rewrite Hfile.
    destruct (JsString.startsWith u "node:") eqn:Hnode; [|reflexivity].
    apply startsWith_iff in Hfile, Hnode.
    destruct Hfile as [r ->], Hnode as [r' Hr']. discriminate.
Qed.

(** C5.  [tryReadScriptAsString] reports a read failure whose code is ENOENT
    as FILE_NOT_FOUND, every other read failure as IO_ERROR and every
    transpile failure as IO_ERROR, each time with the original error as the
    cause; FILE_NOT_FOUND is reported for nothing but an ENOENT read
    failure. *)
Theorem tryReadScriptAsString_error_mapping (filePath : string) (s : St) :
  let s0 := mkState (transpileCache s) (analyzeCache s) (ReadFile filePath :: trace s) in
  (forall readError,
      readFile (trace s) filePath = ReadFileRejects readError ->
      hasCode readError "ENOENT" = true ->
      tryReadScriptAsString filePath s =
      (Normal (ReadFailure
                 (createReadError FILE_NOT_FOUND (message readError) readError)), s0)) /\
  (forall readError,
      readFile (trace s) filePath = ReadFileRejects readError ->
      hasCode readError "ENOENT" = false ->
      tryReadScriptAsString filePath s =
      (Normal (ReadFailure
                 (createReadError IO_ERROR (message readError) readError)), s0)) /\
  (forall content transpileError s1,
      readFile (trace s) filePath = ReadFileResolves content ->
      maybeTranspile filePath content s0 = (Normal (TranspileError transpileError), s1) ->
      tryReadScriptAsString filePath s =
      (Normal (ReadFailure
                 (createReadError IO_ERROR
                    ("failed to transpile code of " ++ JsString.quoted filePath)
                    transpileError)), s1)) /\
  (forall error s',
      tryReadScriptAsString filePath s = (Normal (ReadFailure error), s') ->
      readErrorCode error = FILE_NOT_FOUND ->
      exists readError,
        readFile (trace s) filePath = ReadFileRejects readError /\
        hasCode readError "ENOENT" = true /\
        cause error = readError).
Proof.
  intros s0. unfold tryReadScriptAsString, bind. rewrite awaitReadFile_state.
  fold s0. repeat split.
  - now intros readError -> ->.
  - now intros readError -> ->.
  - now intros content transpileError s1 -> ->.
  - intros error s'. destruct (readFile (trace s) filePath) as [err|content].
    + destruct (hasCode err "ENOENT") eqn:Hc; unfold ret; intros [= <- _] Hcode.
      * now exists err.
      * discriminate.
    + destruct (maybeTranspile filePath content s0) as [[[ex|t]|e] s2];
        unfold ret; intros H Hcode; try discriminate.
      injection H as <- _. discriminate.
Qed.

(** Whatever [set] stores, if the most recently used entry is gone afterwards
    then so is every other older entry. *)
Lemma set_keeps_mru_any (V : Type) (c c1 : LRUCache.t V) k v k' v' :
  get k c = (Some v, c1) -> k' <> k ->
  find k (entries (set k' v' c1)) = None ->
  forall e, In e (entries (set k' v' c1)) -> key e = k'.
Proof.
  unfold get. destruct (find k (entries c)) as [e0|] eqn:E; [|discriminate].
  intros [= _ <-] Hne Hgone. destruct (find_key _ _ E) as [Hk _]. subst k.
  set (c1 := withEntries c (remove (key e0) (entries c) ++ [e0])) in *.
  destruct (N.ltb_spec (maxSize c1) (sizeCalculation c1 v' k')) as [Hbig|Hfit].
  - exfalso. revert Hgone. unfold set.
    destruct (N.ltb_spec (maxSize c1) (sizeCalculation c1 v' k')); [|lia].
    unfold delete, c1. simpl. rewrite find_remove_other by congruence.
    rewrite find_app, find_remove_same. simpl. now rewrite String.eqb_refl.
  - assert (Hne' : key e0 <> k') by congruence.
    rewrite (@set_keeps_mru V k' v' c1 (remove (key e0) (entries c)) e0
               eq_refl Hne' Hfit Hgone).
    intros e [<-|[]]. reflexivity.
Qed.

(** C6.  Along every run of the router's callbacks both caches stay within
    the budget they were created with, every entry being charged its key
    length plus its value's length (for an analysis result, the length of its
    JSON text); each single [get] and [set] keeps the invariant, so requests
    that interleave keep it too.  A [set] of an entry that fits evicts from
    the least-recently-used end only, and stops at the first point where the
    new entry fits; a [get] that hits moves the entry to the
    most-recently-used end; and after such a [get], a [set] of another key
    removes that entry only if it removes every other older entry as well. *)
Theorem caches_stay_within_budget (o : Options) (cs : list Call) :
  let s := run cs (initialState (expressRouter o)) in
  ((calculatedSize (entries (transpileCache s))
    <= orDefault (optMaxTranspileCacheSize o) (64 * 1024 * 1024))%N /\
   Forall (fun e => size e = (JsString.length (key e) + JsString.length (value e))%N)
          (entries (transpileCache s)) /\
   (calculatedSize (entries (analyzeCache s))
    <= orDefault (optMaxAnalyzeCacheSize o) (1 * 1024 * 1024))%N /\
   Forall (fun e => size e = (JsString.length (key e)
                              + JsString.length (JSON_stringify (value e)))%N)
          (entries (analyzeCache s))) /\
  (forall (V : Type) (c : LRUCache.t V) k v,
      wf c -> wf (snd (get k c)) /\ wf (set k v c)) /\
  (forall (V : Type) (c : LRUCache.t V) k v,
      (sizeCalculation c v k <= maxSize c)%N ->
      exists gone kept,
        remove k (entries c) = gone ++ kept /\
        entries (set k v c) = kept ++ [mkEntry k v (sizeCalculation c v k)] /\
        forall gone' kept',
          remove k (entries c) = gone' ++ kept' ->
          (calculatedSize kept' + sizeCalculation c v k <= maxSize c)%N ->
          exists pre, kept = pre ++ kept') /\
  (forall (V : Type) (c : LRUCache.t V) k e,
      find k (entries c) = Some e ->
      get k c = (Some (value e), withEntries c (remove k (entries c) ++ [e]))) /\
  (forall (V : Type) (c c1 : LRUCache.t V) k v k' v',
      get k c = (Some v, c1) -> k' <> k ->
      find k (entries (set k' v' c1)) = None ->
      forall e, In e (entries (set k' v' c1)) -> key e = k').
Proof.
  intros s.
  pose proof (run_budgeted cs (budgeted_initial o))
    as ((_ & Ht & Hts) & Hst & (_ & Ha & Has) & Hsa).
  pose proof (run_budgets cs (initialState (expressRouter o))) as [Hmt Hma].
  fold s in Ht, Hts, Hst, Ha, Has, Hsa, Hmt, Hma.
  split; [|split; [|split; [|split]]].
  - split; [|split; [|split]].
    + rewrite Hmt in Ht. exact Ht.
    + rewrite Hst in Hts. exact Hts.
    + rewrite Hma in Ha. exact Ha.
    + rewrite Hsa in Has. exact Has.
  - intros V c k v Hwf. split; [now apply get_wf | now apply set_wf].
  - intros V c k v. apply set_evicts_lru.
  - intros V c k e. apply get_hit.
  - intros V c c1 k v k' v'. apply set_keeps_mru_any.
Qed.

(** C7 (as amended).  The cache key is the digest of the content alone: two
    paths that end in neither .js nor .mjs get the same result and the same
    state for the same content.  When the call for the first path returned a
    transpiled string whose entry fits the budget, the call for the second
    path returns that string without invoking the transpiler (at most one
    invocation over both calls), and the cache then holds exactly one entry
    under the digest, with that string as its value. *)
Theorem content_addressed_cache (filePath1 filePath2 code : string) (s : St) :
  isNative filePath1 = false -> isNative filePath2 = false ->
  maybeTranspile filePath1 code s = maybeTranspile filePath2 code s /\
  forall transpiled s1,
    budgeted s ->
    maybeTranspile filePath1 code s = (Normal (TranspileSuccess transpiled), s1) ->
    (JsString.length (hexDigestMd5 code) + JsString.length transpiled
     <= maxSize (transpileCache s))%N ->
    exists s2 e,
      maybeTranspile filePath2 code s1 = (Normal (TranspileSuccess transpiled), s2) /\
      transpilerCalls (trace s2) = transpilerCalls (trace s1) /\
      (List.length (transpilerCalls (trace s2))
       <= 1 + List.length (transpilerCalls (trace s)))%nat /\
      filter (fun e => String.eqb (key e) (hexDigestMd5 code))
             (entries (transpileCache s2)) = [e] /\
      value e = transpiled.
Proof.
  intros Hn1 Hn2. split.
  - unfold maybeTranspile. now rewrite Hn1, Hn2.
  - intros transpiled s1 (_ & Hsize & _) Hcall Hfit.
    assert (Hfit' : (sizeCalculation (transpileCache s) transpiled (hexDigestMd5 code)
                     <= maxSize (transpileCache s))%N) by now rewrite Hsize.
    destruct (maybeTranspile_again filePath1 filePath2 code s Hn1 Hn2 Hcall Hfit')
      as (s2 & H2 & Hcache & Hsame & Hlen).
    destruct (maybeTranspile_leaves_entry _ _ _ Hn1 Hcall Hfit') as (Hget & _).
    destruct (get_single_entry _ Hget) as (e & Hfilter & _ & Hv).
    exists s2, e. rewrite Hcache. auto.
Qed.

(** C8.  When the transpiler, reached after a cache miss, returns without a
    string, [maybeTranspile] throws "BUG: transpiled code is undefined": it
    returns no [{ error }] result, and it leaves the transpile cache as it
    was, the trace showing the transpiler call as the last event. *)
Theorem maybeTranspile_undefined_is_fatal (filePath code : string) (s : St) :
  isNative filePath = false ->
  find (hexDigestMd5 code) (entries (transpileCache s)) = None ->
  transpilerAnswer s code = TranspileCodeReturns None ->
  exists s',
    maybeTranspile filePath code s
    = (Abrupt (JsError "BUG: transpiled code is undefined"), s') /\
    transpileCache s' = transpileCache s /\
    trace s' = TranspileCode code :: TranspileCacheGet (hexDigestMd5 code)
                 :: Md5 code :: trace s.
Proof.
  intros Hn Hmiss Hnone.
  rewrite (maybeTranspile_miss _ _ _ Hn Hmiss), Hnone. cbv zeta.
  eexists. repeat split.
Qed.

(** C9 (as amended).  For a request whose method is not HEAD: it is a script
    request exactly when [req.url] ends with one of the router's file
    endings, which are [.js] and [.ts] unless configured; a script request
    is handed to [server.handleRequest] with that URL, and any other request
    goes on to [express.static] of the base folder. *)
Theorem script_requests_by_url_suffix (o : Options) (req : Request) :
  let r := expressRouter o in
  method req <> "HEAD"%string ->
  fileEndings r = orDefault (optFileEndings o) [".js"; ".ts"]%string /\
  baseFolder r = optBaseFolder o /\
  (isScript (fileEndings r) req = true <->
   exists ending, In ending (fileEndings r) /\
                  exists p, url req = (p ++ ending)%string) /\
  (isScript (fileEndings r) req = true ->
   route r req = Normal (HandleRequest (url req))) /\
  (isScript (fileEndings r) req = false ->
   route r req = Normal (ExpressStatic (baseFolder r) req)).
Proof.
  intros r Hm. repeat split.
  - unfold isScript. rewrite existsb_exists. intros (e & Hin & He).
    exists e. split; [exact Hin | now apply endsWith_iff].
  - unfold isScript. rewrite existsb_exists. intros (e & Hin & He).
    exists e. split; [exact Hin | now apply endsWith_iff].
  - intros Hs. unfold route, scriptMiddleware.
    destruct (String.eqb_spec (method req) "HEAD"); [contradiction|].
    now rewrite Hs.
  - intros Hs. unfold route, scriptMiddleware.
    destruct (String.eqb_spec (method req) "HEAD"); [contradiction|].
    now rewrite Hs.
Qed.

(** C10.  For a HEAD request the first middleware throws "HEAD not supported
    yet" whatever the URL and whatever the file endings, so the request
    reaches neither the debug core nor static serving. *)
Theorem head_requests_throw (r : Router) (u b : string) :
  let req := mkRequest "HEAD" u b in
  scriptMiddleware (fileEndings r) req = Abrupt (JsError "HEAD not supported yet") /\
  route r req = Abrupt (JsError "HEAD not supported yet") /\
  (forall uri, route r req <> Normal (HandleRequest uri)) /\
  (forall folder req', route r req <> Normal (ExpressStatic folder req')).
Proof. intros req. repeat split; discriminate. Qed.

(** * Part III-b: further properties of the code *)

(** ** Strings *)

Lemma append_length (a b : string) :
  String.length (a ++ b)%string = String.length a + String.length b.
Proof. induction a as [|c a IH]; simpl; [reflexivity | now rewrite IH]. Qed.

(** Two endings of one string are nested: the shorter one ends the longer
    one. *)
Lemma endsWith_nested (s e1 e2 : string) :
  JsString.endsWith s e1 = true -> JsString.endsWith s e2 = true ->
  String.length e1 <= String.length e2 ->
  JsString.endsWith e2 e1 = true.
Proof.
  rewrite !endsWith_iff. intros [p1 H1] [p2 H2] Hlen. subst s.
  revert p1 H2. induction p2 as [|c p2 IH]; intros p1 H2.
  - simpl in H2. now exists p1.
  - destruct p1 as [|d p1]; simpl in H2.
    + exfalso. subst e1. simpl in Hlen. rewrite append_length in Hlen. lia.
    + injection H2 as _ H2. now apply IH with (p1 := p1).
Qed.

Lemma substring_length (n : nat) (s : string) :
  n <= String.length s -> String.length (substring 0 n s) = n.
Proof.
  revert s. induction n as [|n IH]; intros s H.
  - now destruct s.
  - destruct s as [|c s]; simpl in *; [lia|]. rewrite IH; lia.
Qed.

(** ** Membership in a cache after [get] and [set] *)

Section CacheMembership.
Variable V : Type.
Implicit Types (es : list (LRUCache.Entry V)) (c : LRUCache.t V).
Implicit Types (k : string) (v : V) (e : LRUCache.Entry V).

Lemma In_remove k es e : In e (remove k es) -> In e es.
Proof.
  induction es as [|x es IH]; simpl; [auto|].
  destruct (String.eqb (key x) k); simpl; [auto|].
  intros [H|H]; auto.
Qed.

Lemma In_evict room es e : In e (evict room es) -> In e es.
Proof.
  destruct (evict_suffix room es) as [gone H]. intros Hin.
  rewrite H. apply in_or_app. now right.
Qed.

Lemma In_get k c e : In e (entries (snd (get k c))) -> In e (entries c).
Proof.
  unfold get. destruct (find k (entries c)) as [x|] eqn:E; simpl; [|auto].
  intros H. apply in_app_or in H. destruct H as [H|[<-|[]]].
  - now apply In_remove in H.
  - now destruct (find_key _ _ E).
Qed.

Lemma In_set k v c e :
  In e (entries (set k v c)) ->
  e = mkEntry k v (sizeCalculation c v k) \/ In e (entries c).
Proof.
  unfold set, delete.
  destruct (maxSize c <? sizeCalculation c v k)%N; simpl; intros H.
  - right. now apply In_remove in H.
  - apply in_app_or in H. destruct H as [H|[<-|[]]]; [right | now left].
    now apply In_evict, In_remove in H.
Qed.

Lemma get_some_In k c v c' :
  get k c = (Some v, c') ->
  exists e, In e (entries c) /\ key e = k /\ value e = v.
Proof.
  unfold get. destruct (find k (entries c)) as [x|] eqn:E; [|discriminate].
  intros [= <- _]. exists x. destruct (find_key _ _ E). auto.
Qed.

Lemma calculatedSize_at_least (low : N) es :
  (forall e, In e es -> (low <= size e)%N) ->
  (low * N.of_nat (List.length es) <= calculatedSize es)%N.
Proof.
  induction es as [|x es IH]; intros H; simpl List.length; simpl calculatedSize.
  - lia.
  - assert (low <= size x)%N by (apply H; now left).
    assert (low * N.of_nat (List.length es) <= calculatedSize es)%N
      by (apply IH; intros e He; apply H; now right).
    lia.
Qed.

End CacheMembership.

(** ** What one call adds to the trace *)

Lemma maybeTranspile_trace filePath code (s : St) :
  let s' := snd (maybeTranspile filePath code s) in
  (transpilerCalls (trace s') = transpilerCalls (trace s) \/
   transpilerCalls (trace s') = code :: transpilerCalls (trace s)) /\
  analyzerCalls (trace s') = analyzerCalls (trace s) /\
  fileReads (trace s') = fileReads (trace s) /\
  analyzeCache s' = analyzeCache s /\
  incl (trace s) (trace s').
Proof.
  run_closures. destruct (isNative filePath); cbn.
  { repeat split; auto using incl_refl. }
  destruct (get (hexDigestMd5 code) (transpileCache s)) as [[v|] c]; cbn.
  { repeat split; auto. intros x Hx. simpl. auto. }
  destruct (transpileCode _ code) as [ex|[t|]]; cbn;
    (repeat split; auto; intros x Hx; simpl; auto).
Qed.

Lemma analyzeCode_trace code (s : St) :
  let s' := snd (analyzeCode code s) in
  (analyzerCalls (trace s') = analyzerCalls (trace s) \/
   analyzerCalls (trace s') = code :: analyzerCalls (trace s)) /\
  transpilerCalls (trace s') = transpilerCalls (trace s) /\
  fileReads (trace s') = fileReads (trace s) /\
  transpileCache s' = transpileCache s /\
  incl (trace s) (trace s').
Proof.
  run_closures.
  destruct (get (hexDigestMd5 code) (analyzeCache s)) as [[v|] c]; cbn.
  { repeat split; auto. intros x Hx. simpl. auto. }
  destruct (defaultCodeAnalyzer _ code) as [err|res]; cbn;
    (repeat split; auto; intros x Hx; simpl; auto).
Qed.

Lemma tryReadScriptAsString_unfold filePath (s : St) :
  tryReadScriptAsString filePath s =
  let s0 := mkState (transpileCache s) (analyzeCache s) (ReadFile filePath :: trace s) in
  match readFile (trace s) filePath with
  | ReadFileRejects readError =>
      (Normal (ReadFailure
                 (createReadError
                    (if hasCode readError "ENOENT" then FILE_NOT_FOUND else IO_ERROR)
                    (message readError) readError)), s0)
  | ReadFileResolves content =>
      match maybeTranspile filePath content s0 with
      | (Normal (TranspileError transpileError), s1) =>
          (Normal (ReadFailure
                     (createReadError IO_ERROR
                        ("failed to transpile code of " ++ JsString.quoted filePath)
                        transpileError)), s1)
      | (Normal (TranspileSuccess transpiled), s1) => (Normal (ReadContent transpiled), s1)
      | (Abrupt e, s1) => (Abrupt e, s1)
      end
  end.
Proof.
  unfold tryReadScriptAsString, bind. rewrite awaitReadFile_state. cbv zeta.
  destruct (readFile (trace s) filePath) as [err|content].
  - now destruct (hasCode err "ENOENT").
  - now destruct (maybeTranspile filePath content _) as [[[ex|t]|e] s1].
Qed.

Lemma tryReadScriptAsString_state filePath (s : St) :
  let s0 := mkState (transpileCache s) (analyzeCache s) (ReadFile filePath :: trace s) in
  snd (tryReadScriptAsString filePath s) =
  match readFile (trace s) filePath with
  | ReadFileRejects _ => s0
  | ReadFileResolves content => snd (maybeTranspile filePath content s0)
  end.
Proof.
  rewrite tryReadScriptAsString_unfold. cbv zeta.
  destruct (readFile (trace s) filePath) as [err|content]; [reflexivity|].
  now destruct (maybeTranspile filePath content _) as [[[ex|t]|e] s1].
Qed.

Lemma tryReadScriptAsString_trace filePath (s : St) :
  let s' := snd (tryReadScriptAsString filePath s) in
  (transpilerCalls (trace s') = transpilerCalls (trace s) \/
   exists content, transpilerCalls (trace s') = content :: transpilerCalls (trace s)) /\
  analyzerCalls (trace s') = analyzerCalls (trace s) /\
  fileReads (trace s') = filePath :: fileReads (trace s) /\
  analyzeCache s' = analyzeCache s /\
  incl (trace s) (trace s').
Proof.
  cbv zeta. rewrite tryReadScriptAsString_state. cbv zeta.
  destruct (readFile (trace s) filePath) as [err|content].
  - cbn. repeat split; auto. intros x Hx. simpl. auto.
  - set (s0 := mkState _ _ _).
    destruct (maybeTranspile_trace filePath content s0) as (Ht & Ha & Hf & Hc & Hi).
    cbv zeta in *. rewrite Ha, Hf, Hc. cbn. repeat split.
    + destruct Ht as [-> | ->]; [now left | right; now exists content].
    + intros x Hx. apply Hi. simpl. auto.
Qed.

(** ** The caches hold nothing but what the collaborators produced *)

Lemma transpiledEarlier_later (s s' : St) e :
  incl (trace s) (trace s') -> transpiledEarlier s e -> transpiledEarlier s' e.
Proof.
  intros Hi (tr & code & Hin & Hk & Hv). exists tr, code. auto.
Qed.

Lemma analyzedEarlier_later (s s' : St) e :
  incl (trace s) (trace s') -> analyzedEarlier s e -> analyzedEarlier s' e.
Proof.
  intros Hi (tr & code & Hin & Hk & Hv). exists tr, code. auto.
Qed.

Lemma cachesSound_initial (o : Options) : cachesSound (initialState (expressRouter o)).
Proof. split; intros e []. Qed.

Lemma maybeTranspile_sound filePath code (s : St) :
  cachesSound s -> cachesSound (snd (maybeTranspile filePath code s)).
Proof.
  intros [Ht Ha].
  destruct (maybeTranspile_trace filePath code s) as (_ & _ & _ & Hc & Hi).
  cbv zeta in Hc, Hi. split.
  - intros e. destruct (isNative filePath) eqn:Hn.
    { rewrite maybeTranspile_native by assumption. apply Ht. }
    destruct (find (hexDigestMd5 code) (entries (transpileCache s))) as [e0|] eqn:E.
    + intros He. apply transpiledEarlier_later with (s := s); [exact Hi|].
      apply Ht. apply In_get with (k := hexDigestMd5 code).
      rewrite (get_hit _ _ E). rewrite (maybeTranspile_hit _ _ _ Hn E) in He.
      exact He.
    + revert Hi. rewrite (maybeTranspile_miss _ _ _ Hn E). cbv zeta.
      destruct (transpilerAnswer s code) as [ex|[t|]] eqn:Hans; cbn; intros Hi He.
      * apply transpiledEarlier_later with (s := s); auto.
      * apply In_set in He. destruct He as [-> | He].
        -- exists (TranspileCacheGet (hexDigestMd5 code) :: Md5 code :: trace s), code.
           cbn. repeat split; auto.
        -- apply transpiledEarlier_later with (s := s); auto.
      * apply transpiledEarlier_later with (s := s); auto.
  - intros e He. rewrite Hc in He.
    apply analyzedEarlier_later with (s := s); auto.
Qed.

Lemma analyzeCode_sound code (s : St) :
  cachesSound s -> cachesSound (snd (analyzeCode code s)).
Proof.
  intros [Ht Ha].
  destruct (analyzeCode_trace code s) as (_ & _ & _ & Hc & Hi).
  cbv zeta in Hc, Hi. split.
  - intros e He. rewrite Hc in He.
    apply transpiledEarlier_later with (s := s); auto.
  - intros e.
    destruct (find (hexDigestMd5 code) (entries (analyzeCache s))) as [e0|] eqn:E.
    + intros He. apply analyzedEarlier_later with (s := s); [exact Hi|].
      apply Ha. apply In_get with (k := hexDigestMd5 code).
      rewrite (get_hit _ _ E). rewrite (analyzeCode_hit _ _ E) in He.
      exact He.
    + revert Hi. rewrite (analyzeCode_miss _ _ E). cbv zeta.
      destruct (analyzerAnswer s code) as [err|res] eqn:Hans; cbn; intros Hi He.
      * apply analyzedEarlier_later with (s := s); auto.
      * apply In_set in He. destruct He as [-> | He].
        -- exists (AnalyzeCacheGet (hexDigestMd5 code) :: Md5 code :: trace s), code.
           cbn. repeat split; auto.
        -- apply analyzedEarlier_later with (s := s); auto.
Qed.

Lemma tryReadScriptAsString_sound filePath (s : St) :
  cachesSound s -> cachesSound (snd (tryReadScriptAsString filePath s)).
Proof.
  intros Hs. rewrite tryReadScriptAsString_state. cbv zeta.
  set (s0 := mkState _ _ _).
  assert (Hs0 : cachesSound s0).
  { destruct Hs as [Ht Ha]. split; intros e He.
    - apply transpiledEarlier_later with (s := s); [|now apply Ht].
      intros x Hx. simpl. auto.
    - apply analyzedEarlier_later with (s := s); [|now apply Ha].
      intros x Hx. simpl. auto. }
  destruct (readFile (trace s) filePath) as [err|content]; [exact Hs0|].
  now apply maybeTranspile_sound.
Qed.

Lemma step_sound (s : St) (c : Call) : cachesSound s -> cachesSound (step s c).
Proof.
  destruct c; simpl;
    auto using tryReadScriptAsString_sound, maybeTranspile_sound, analyzeCode_sound.
Qed.

Lemma run_sound (cs : list Call) (s : St) : cachesSound s -> cachesSound (run cs s).
Proof.
  unfold run. revert s. induction cs as [|c cs IH]; simpl; auto using step_sound.
Qed.

(** ** A second call of [analyzeCode] *)

Lemma analyzeCode_cached code (s : St) v c' :
  get (hexDigestMd5 code) (analyzeCache s) = (Some v, c') ->
  analyzeCode code s =
  (Normal (AnalyzeResult v),
   mkState (transpileCache s) c'
           (AnalyzeCacheGet (hexDigestMd5 code) :: Md5 code :: trace s)).
Proof. intros Hget. run_closures. now rewrite Hget. Qed.

Lemma analyzeCode_leaves_entry code (s s1 : St) result :
  analyzeCode code s = (Normal (AnalyzeResult result), s1) ->
  (sizeCalculation (analyzeCache s) result (hexDigestMd5 code)
   <= maxSize (analyzeCache s))%N ->
  get (hexDigestMd5 code) (analyzeCache s1) = (Some result, analyzeCache s1) /\
  (List.length (analyzerCalls (trace s1))
   <= 1 + List.length (analyzerCalls (trace s)))%nat.
Proof.
  intros Hcall Hfit.
  destruct (find (hexDigestMd5 code) (entries (analyzeCache s))) as [e|] eqn:E.
  - rewrite (analyzeCode_hit _ _ E) in Hcall.
    injection Hcall as <- <-. simpl. split; [|lia].
    apply get_get with (c := analyzeCache s). now apply get_hit.
  - rewrite (analyzeCode_miss _ _ E) in Hcall. cbv zeta in Hcall.
    destruct (analyzerAnswer s code) as [err|res]; try discriminate.
    injection Hcall as <- <-. simpl. split; [|lia].
    now apply get_set.
Qed.

(** ** Properties of [tryReadScriptAsString], [analyzeCode] and the caches *)

(** X1.  Serving the same unchanged file twice: when a read of a non-native
    file returned transpiled content whose entry fits the budget, and the
    file still has the same content, the next read returns the same content,
    does not invoke the transpiler, and still reads the file. *)
Theorem tryReadScriptAsString_twice
        (filePath content transpiled : string) (s s1 : St) :
  budgeted s ->
  isNative filePath = false ->
  readFile (trace s) filePath = ReadFileResolves content ->
  readFile (trace s1) filePath = ReadFileResolves content ->
  tryReadScriptAsString filePath s = (Normal (ReadContent transpiled), s1) ->
  (JsString.length (hexDigestMd5 content) + JsString.length transpiled
   <= maxSize (transpileCache s))%N ->
  exists s2,
    tryReadScriptAsString filePath s1 = (Normal (ReadContent transpiled), s2) /\
    transpilerCalls (trace s2) = transpilerCalls (trace s1) /\
    fileReads (trace s2) = filePath :: fileReads (trace s1).
Proof.
  intros (_ & Hsize & _) Hn Hread Hread1 Hcall Hfit.
  rewrite tryReadScriptAsString_unfold, Hread in Hcall. cbv zeta in Hcall.
  set (s0 := mkState _ _ _) in Hcall.
  destruct (maybeTranspile filePath content s0) as [[[ex|t]|e] s1'] eqn:Hmt;
    try discriminate.
  injection Hcall as -> ->.
  destruct (maybeTranspile_leaves_entry _ _ _ Hn Hmt) as (Hget & _).
  { unfold s0. cbn [transpileCache]. now rewrite Hsize. }
  rewrite tryReadScriptAsString_unfold, Hread1. cbv zeta.
  set (s10 := mkState _ _ _).
  rewrite (maybeTranspile_cached filePath content s10 Hn Hget).
  eexists. split; [reflexivity|]. split; reflexivity.
Qed.

(** X2.  A native file is served byte for byte: for a path ending in .js or
    .mjs that can be read, [tryReadScriptAsString] returns the file content
    itself, and the only thing it does is the one [readFile]. *)
Theorem native_files_are_served_verbatim (filePath content : string) (s : St) :
  isNative filePath = true ->
  readFile (trace s) filePath = ReadFileResolves content ->
  tryReadScriptAsString filePath s =
  (Normal (ReadContent content),
   mkState (transpileCache s) (analyzeCache s) (ReadFile filePath :: trace s)).
Proof.
  intros Hn Hread. rewrite tryReadScriptAsString_unfold, Hread. cbv zeta.
  now rewrite maybeTranspile_native.
Qed.

(** X3.  The analysis cache: when [analyzeCode] returned a result whose entry
    (digest length plus JSON length) fits the analysis budget, the call that
    follows it on the same code returns the same result without calling
    the analyzer. *)
Theorem analyzeCode_twice (code : string) (s s1 : St) (result : ICodeAnalyzeResult) :
  budgeted s ->
  analyzeCode code s = (Normal (AnalyzeResult result), s1) ->
  (JsString.length (hexDigestMd5 code) + JsString.length (JSON_stringify result)
   <= maxSize (analyzeCache s))%N ->
  exists s2,
    analyzeCode code s1 = (Normal (AnalyzeResult result), s2) /\
    analyzerCalls (trace s2) = analyzerCalls (trace s1) /\
    (List.length (analyzerCalls (trace s2))
     <= 1 + List.length (analyzerCalls (trace s)))%nat.
Proof.
  intros (_ & _ & _ & Hsize) Hcall Hfit.
  destruct (analyzeCode_leaves_entry _ _ Hcall) as (Hget & Hlen).
  { now rewrite Hsize. }
  eexists. split; [apply (analyzeCode_cached _ _ Hget)|].
  simpl. auto.
Qed.

(** X4.  The only exception: [maybeTranspile] and [tryReadScriptAsString]
    throw nothing but "BUG: transpiled code is undefined", and only after the
    transpiler was reached and returned without a string; read failures and
    transpiler exceptions are returned, never thrown. *)
Theorem only_the_broken_contract_throws (filePath code : string) (s s' : St) (e : Error) :
  (maybeTranspile filePath code s = (Abrupt e, s') ->
   e = JsError "BUG: transpiled code is undefined" /\
   isNative filePath = false /\
   transpilerAnswer s code = TranspileCodeReturns None /\
   transpileCache s' = transpileCache s) /\
  (tryReadScriptAsString filePath s = (Abrupt e, s') ->
   e = JsError "BUG: transpiled code is undefined" /\
   exists content,
     readFile (trace s) filePath = ReadFileResolves content /\
     isNative filePath = false /\
     transpileCache s' = transpileCache s).
Proof.
  assert (Hm : forall code0 (s0 s1 : St),
             maybeTranspile filePath code0 s0 = (Abrupt e, s1) ->
             e = JsError "BUG: transpiled code is undefined" /\
             isNative filePath = false /\
             transpilerAnswer s0 code0 = TranspileCodeReturns None /\
             transpileCache s1 = transpileCache s0).
  { intros code0 s0 s1 H. destruct (isNative filePath) eqn:Hn.
    { rewrite maybeTranspile_native in H by assumption. discriminate. }
    destruct (find (hexDigestMd5 code0) (entries (transpileCache s0))) as [e0|] eqn:E.
    { rewrite (maybeTranspile_hit _ _ _ Hn E) in H. discriminate. }
    rewrite (maybeTranspile_miss _ _ _ Hn E) in H. cbv zeta in H.
    destruct (transpilerAnswer s0 code0) as [ex|[t|]]; try discriminate.
    injection H as <- <-. auto. }
  split; [apply Hm|].
  rewrite tryReadScriptAsString_unfold. cbv zeta.
  destruct (readFile (trace s) filePath) as [err|content]; [discriminate|].
  set (s0 := mkState _ _ _).
  destruct (maybeTranspile filePath content s0) as [[[ex|t]|e'] s1] eqn:Hmt;
    try discriminate.
  intros [= -> ->]. destruct (Hm _ _ _ Hmt) as (He & Hn & _ & Hc).
  split; [exact He|]. exists content. auto.
Qed.

(** X5.  The transpiler is called exactly on a miss: [maybeTranspile] hands
    the code to the transpiler, once, when the path is not native and the
    digest of the code is not in the cache, and does not call it in any
    other case. *)
Theorem transpiler_called_exactly_on_a_miss (filePath code : string) (s : St) :
  let s' := snd (maybeTranspile filePath code s) in
  (isNative filePath = false ->
   find (hexDigestMd5 code) (entries (transpileCache s)) = None ->
   transpilerCalls (trace s') = code :: transpilerCalls (trace s)) /\
  (isNative filePath = true \/
   find (hexDigestMd5 code) (entries (transpileCache s)) <> None ->
   transpilerCalls (trace s') = transpilerCalls (trace s)).
Proof.
  cbv zeta. split.
  - intros Hn Hmiss. rewrite (maybeTranspile_miss _ _ _ Hn Hmiss). cbv zeta.
    now destruct (transpilerAnswer s code) as [ex|[t|]].
  - intros H. destruct (isNative filePath) eqn:Hn.
    { now rewrite maybeTranspile_native. }
    destruct H as [H|H]; [discriminate|].
    destruct (find (hexDigestMd5 code) (entries (transpileCache s))) as [e0|] eqn:E;
      [|contradiction].
    now rewrite (maybeTranspile_hit _ _ _ Hn E).
Qed.

(** X6.  At most one collaborator call per callback: along any run, the
    transpiler and analyzer calls together, and the file reads, number at
    most the callbacks run. *)
Theorem one_collaborator_call_per_callback (cs : list Call) (s : St) :
  let s' := run cs s in
  (List.length (transpilerCalls (trace s')) + List.length (analyzerCalls (trace s'))
   <= List.length (transpilerCalls (trace s)) + List.length (analyzerCalls (trace s))
      + List.length cs)%nat /\
  (List.length (fileReads (trace s'))
   <= List.length (fileReads (trace s)) + List.length cs)%nat.
Proof.
  cbv zeta. unfold run. revert s.
  induction cs as [|c cs IH]; intros s; simpl; [lia|].
  specialize (IH (step s c)).
  assert (Hstep :
            (List.length (transpilerCalls (trace (step s c)))
             + List.length (analyzerCalls (trace (step s c)))
             <= S (List.length (transpilerCalls (trace s))
                   + List.length (analyzerCalls (trace s))))%nat /\
            (List.length (fileReads (trace (step s c)))
             <= S (List.length (fileReads (trace s))))%nat).
  { destruct c as [p|p code|code]; simpl.
    - destruct (tryReadScriptAsString_trace p s) as (Ht & Ha & Hf & _).
      cbv zeta in *. rewrite Ha, Hf.
      destruct Ht as [-> | [content ->]]; simpl; lia.
    - destruct (maybeTranspile_trace p code s) as (Ht & Ha & Hf & _).
      cbv zeta in *. rewrite Ha, Hf.
      destruct Ht as [-> | ->]; simpl; lia.
    - destruct (analyzeCode_trace code s) as (Ha & Ht & Hf & _).
      cbv zeta in *. rewrite Ht, Hf.
      destruct Ha as [-> | ->]; simpl; lia. }
  lia.
Qed.

(** X7.  The two caches are separate: transpiling and reading never change
    the analysis cache or call the analyzer, and analyzing never changes the
    transpile cache or calls the transpiler. *)
Theorem caches_are_separate (filePath code : string) (s : St) :
  (analyzeCache (snd (maybeTranspile filePath code s)) = analyzeCache s /\
   analyzerCalls (trace (snd (maybeTranspile filePath code s)))
   = analyzerCalls (trace s)) /\
  (analyzeCache (snd (tryReadScriptAsString filePath s)) = analyzeCache s /\
   analyzerCalls (trace (snd (tryReadScriptAsString filePath s)))
   = analyzerCalls (trace s)) /\
  (transpileCache (snd (analyzeCode code s)) = transpileCache s /\
   transpilerCalls (trace (snd (analyzeCode code s)))
   = transpilerCalls (trace s)).
Proof.
  destruct (maybeTranspile_trace filePath code s) as (_ & H1 & _ & H2 & _).
  destruct (tryReadScriptAsString_trace filePath s) as (_ & H3 & _ & H4 & _).
  destruct (analyzeCode_trace code s) as (_ & H5 & _ & H6 & _).
  cbv zeta in *. auto.
Qed.

(** X8.  Whatever is served from the transpile cache was produced by the
    transpiler: in every state a run reaches from a fresh router, every
    cache entry is a transpiler output stored under the digest of its input,
    and a transpiled string returned by [maybeTranspile] is a transpiler
    output for a content with the digest of the given code. *)
Theorem cached_results_come_from_the_transpiler
        (o : Options) (cs : list Call) (filePath code transpiled : string) :
  let s := run cs (initialState (expressRouter o)) in
  isNative filePath = false ->
  fst (maybeTranspile filePath code s) = Normal (TranspileSuccess transpiled) ->
  cachesSound s /\
  exists tr code',
    hexDigestMd5 code' = hexDigestMd5 code /\
    transpileCode tr code' = TranspileCodeReturns (Some transpiled).
Proof.
  intros s Hn Hres.
  assert (Hs : cachesSound s) by apply run_sound, cachesSound_initial.
  split; [exact Hs|].
  destruct (find (hexDigestMd5 code) (entries (transpileCache s))) as [e|] eqn:E.
  - rewrite (maybeTranspile_hit _ _ _ Hn E) in Hres. injection Hres as <-.
    destruct (find_key _ _ E) as [Hk Hin].
    destruct (proj1 Hs e Hin) as (tr & code' & _ & Hk' & Hv).
    exists tr, code'. split; [congruence | exact Hv].
  - rewrite (maybeTranspile_miss _ _ _ Hn E) in Hres. cbv zeta in Hres.
    destruct (transpilerAnswer s code) as [ex|[t|]] eqn:Hans; try discriminate.
    injection Hres as <-. now exists (TranspileCacheGet (hexDigestMd5 code)
                                        :: Md5 code :: trace s), code.
Qed.

(** X9.  The transpile cache is transparent: for a transpiler whose answer
    depends on the code alone, in every state a run reaches from a fresh
    router, and for a code whose digest collides with no content transpiled
    before, [maybeTranspile] on a non-native path ends exactly as the
    transpiler's answer for that code prescribes. *)
Theorem maybeTranspile_is_transparent
        (o : Options) (cs : list Call) (f : string -> TranspileCodeReply)
        (filePath code : string) :
  let s := run cs (initialState (expressRouter o)) in
  (forall tr c, transpileCode tr c = f c) ->
  noTranspileCollision s code ->
  isNative filePath = false ->
  fst (maybeTranspile filePath code s) =
  match f code with
  | TranspileCodeThrows ex => Normal (TranspileError ex)
  | TranspileCodeReturns None => Abrupt (JsError "BUG: transpiled code is undefined")
  | TranspileCodeReturns (Some transpiled) => Normal (TranspileSuccess transpiled)
  end.
Proof.
  intros s Hpure Hfree Hn.
  assert (Hs : cachesSound s) by apply run_sound, cachesSound_initial.
  destruct (find (hexDigestMd5 code) (entries (transpileCache s))) as [e|] eqn:E.
  - rewrite (maybeTranspile_hit _ _ _ Hn E). cbn [fst].
    destruct (find_key _ _ E) as [Hk Hin].
    destruct (proj1 Hs e Hin) as (tr & code' & Hcalled & Hk' & Hv).
    assert (code' = code) by (apply Hfree; [exact Hcalled | congruence]).
    subst code'. rewrite Hpure in Hv. now rewrite Hv.
  - rewrite (maybeTranspile_miss _ _ _ Hn E). cbv zeta.
    unfold transpilerAnswer. rewrite Hpure.
    now destruct (f code) as [ex|[t|]].
Qed.

(** X10.  The analysis cache is transparent: for an analyzer whose answer
    depends on the code alone, in every state a run reaches from a fresh
    router, and for a code whose digest collides with no code analyzed
    before, [analyzeCode] returns what the analyzer answers for that code. *)
Theorem analyzeCode_is_transparent
        (o : Options) (cs : list Call)
        (g : string -> CodeAnalyzeReply ICodeAnalyzeResult) (code : string) :
  let s := run cs (initialState (expressRouter o)) in
  (forall tr c, defaultCodeAnalyzer tr c = g c) ->
  noAnalyzeCollision s code ->
  fst (analyzeCode code s) = Normal (g code).
Proof.
  intros s Hpure Hfree.
  assert (Hs : cachesSound s) by apply run_sound, cachesSound_initial.
  destruct (find (hexDigestMd5 code) (entries (analyzeCache s))) as [e|] eqn:E.
  - rewrite (analyzeCode_hit _ _ E). cbn [fst].
    destruct (find_key _ _ E) as [Hk Hin].
    destruct (proj2 Hs e Hin) as (tr & code' & Hcalled & Hk' & Hv).
    assert (code' = code) by (apply Hfree; [exact Hcalled | congruence]).
    subst code'. rewrite Hpure in Hv. now rewrite Hv.
  - rewrite (analyzeCode_miss _ _ E). cbv zeta.
    unfold analyzerAnswer. rewrite Hpure.
    now destruct (g code) as [err|res].
Qed.

(** X11.  A bound on the number of entries: when digests are 32 characters
    long, as hexadecimal MD5 digests are, every entry costs at least 32
    bytes, so along every run each cache holds at most a 32nd of its budget
    in entries. *)
Theorem caches_hold_few_entries (o : Options) (cs : list Call) :
  let s := run cs (initialState (expressRouter o)) in
  (forall content, String.length (hexDigestMd5 content) = 32%nat) ->
  (32 * N.of_nat (List.length (entries (transpileCache s)))
   <= orDefault (optMaxTranspileCacheSize o) (64 * 1024 * 1024))%N /\
  (32 * N.of_nat (List.length (entries (analyzeCache s)))
   <= orDefault (optMaxAnalyzeCacheSize o) (1 * 1024 * 1024))%N.
Proof.
  intros s Hlen.
  assert (Hs : cachesSound s) by apply run_sound, cachesSound_initial.
  pose proof (run_budgeted cs (budgeted_initial o))
    as ((_ & Ht & Hts) & Hst & (_ & Ha & Has) & Hsa).
  pose proof (run_budgets cs (initialState (expressRouter o))) as [Hmt Hma].
  fold s in Ht, Hts, Hst, Ha, Has, Hsa, Hmt, Hma.
  rewrite Hmt in Ht. rewrite Hma in Ha. rewrite Hst in Hts. rewrite Hsa in Has.
  rewrite Forall_forall in Hts, Has.
  split.
  - eapply N.le_trans; [|exact Ht]. apply calculatedSize_at_least.
    intros e He. rewrite (Hts e He).
    destruct (proj1 Hs e He) as (_ & code' & _ & Hk & _).
    unfold transpileSize, JsString.length. rewrite Hk, Hlen. lia.
  - eapply N.le_trans; [|exact Ha]. apply calculatedSize_at_least.
    intros e He. rewrite (Has e He).
    destruct (proj2 Hs e He) as (_ & code' & _ & Hk & _).
    unfold analyzeSize, JsString.length. rewrite Hk, Hlen. lia.
Qed.

(** ** Properties of the resolver, the middleware and the callbacks *)

(** X12.  A file path is returned for [file:] URLs only: whenever
    [defaultResolveImportPath] returns [{ filePath }], the resolution
    returned a URL that starts with [file:] (and so not with [node:]), and
    the path is [fileURLToPath] of that URL. *)
Theorem filePath_only_for_file_urls (importer specifier filePath : string) :
  defaultResolveImportPath importer specifier = ImportFilePath filePath ->
  exists resolvedUrl,
    resolveImport specifier (pathToFileURL importer) = ResolveImportReturns resolvedUrl /\
    JsString.startsWith resolvedUrl "file:" = true /\
    JsString.startsWith resolvedUrl "node:" = false /\
    filePath = fileURLToPath resolvedUrl.
Proof.
  unfold defaultResolveImportPath.
  destruct (resolveImport specifier (pathToFileURL importer)) as [error|u];
    [discriminate|].
  destruct (JsString.startsWith u "node:") eqn:Hnode; [discriminate|].
  destruct (JsString.startsWith u "file:") eqn:Hfile; [|discriminate].
  intros [= <-]. now exists u.
Qed.

(** X13.  With the default file endings a URL that ends in .mjs is not a
    script request: a non-HEAD request for it goes to [express.static], in
    every router built without [fileEndings] and so in the router of the
    command line tool. *)
Theorem mjs_urls_are_static_by_default (o : Options) (req : Request) :
  optFileEndings o = None ->
  method req <> "HEAD"%string ->
  JsString.endsWith (url req) ".mjs" = true ->
  route (expressRouter o) req = Normal (ExpressStatic (optBaseFolder o) req) /\
  forall rootFolder,
    route (wurzelCli rootFolder) req = Normal (ExpressStatic rootFolder req).
Proof.
  intros Ho Hm Hmjs.
  assert (Hs : isScript [".js"; ".ts"]%string req = false).
  { unfold isScript. simpl.
    destruct (JsString.endsWith (url req) ".js") eqn:Hjs.
    { pose proof (endsWith_nested _ _ _ Hjs Hmjs) as H. simpl in H.
      discriminate H. lia. }
    destruct (JsString.endsWith (url req) ".ts") eqn:Hts; [|reflexivity].
    pose proof (endsWith_nested _ _ _ Hts Hmjs) as H. simpl in H.
    discriminate H. lia. }
  assert (Hr : forall fe folder rip (st : St),
             fe = [".js"; ".ts"]%string ->
             route (mkRouter folder fe rip st) req
             = Normal (ExpressStatic folder req)).
  { intros fe folder rip st ->. unfold route, scriptMiddleware.
    cbn [fileEndings baseFolder].
    destruct (String.eqb_spec (method req) "HEAD"); [contradiction|].
    now rewrite Hs. }
  split.
  - unfold expressRouter. rewrite Ho. now apply Hr.
  - intros rootFolder. unfold wurzelCli, expressRouter. now apply Hr.
Qed.

(** X14.  Every outcome of the debug core ends the response exactly once, as
    the last thing done; a redirect goes to the mount prefix followed by the
    URI; and an internal error reaches the console only, the client getting
    the same fixed 500 response whatever the error. *)
Theorem every_outcome_ends_the_response_once (req : Request) (outcome : CoreOutcome) :
  List.length (filter endsResponse (respond req outcome)) = 1%nat /\
  (exists e, endsResponse e = true /\ last (respond req outcome) e = e /\
             exists before, respond req outcome = before ++ [e]) /\
  (forall uri,
      exists location,
        respond req (CoreRedirect uri) = [ResRedirect location] /\
        JsString.startsWith location (baseUrl req) = true /\
        JsString.endsWith location uri = true) /\
  (forall error,
      sentToClient (respond req (CoreInternalError error))
      = [ResStatus 500; ResEnd "internal server error"] /\
      In (ConsoleError error) (respond req (CoreInternalError error))).
Proof.
  split; [now destruct outcome|]. split.
  - destruct outcome as [uri|ct content| |error]; simpl.
    + exists (ResRedirect (baseUrl req ++ uri)). repeat split. now exists [].
    + exists (ResEnd content). repeat split. now exists [ResWriteHead 200 ct].
    + exists (ResEnd "not found"). repeat split. now exists [ResStatus 404].
    + exists (ResEnd "internal server error"). repeat split.
      now exists [ConsoleError error; ResStatus 500].
  - split.
    + intros uri. exists (baseUrl req ++ uri)%string. repeat split.
      * apply startsWith_iff. now exists uri.
      * apply endsWith_iff. now exists (baseUrl req).
    + intros error. simpl. auto.
Qed.

(** ** The older copy of the module *)

(** X15.  The older [tryReadScriptAsString] does to the state what the
    current one does and agrees with it on the outcome: the same content, the
    same exception, and for a failure the same error code; its message is the
    message of what the current one keeps as the cause, and it writes a
    transpile failure to the console. *)
Theorem part000_tryReadScriptAsString_agrees (filePath : string) (s : St) :
  snd (part000_tryReadScriptAsString filePath s)
  = snd (tryReadScriptAsString filePath s) /\
  match fst (tryReadScriptAsString filePath s),
        fst (part000_tryReadScriptAsString filePath s) with
  | Normal (ReadContent content), Normal (logged, Part000Content content') =>
      content' = content /\ logged = []
  | Normal (ReadFailure error), Normal (logged, Part000Failure error') =>
      part000Code error' = readErrorCode error /\
      part000Message error' = message (cause error) /\
      match readFile (trace s) filePath with
      | ReadFileRejects _ => logged = []
      | ReadFileResolves _ => logged = [cause error]
      end
  | Abrupt e, Abrupt e' => e' = e
  | _, _ => False
  end.
Proof.
  rewrite tryReadScriptAsString_unfold. cbv zeta.
  unfold part000_tryReadScriptAsString, bind. rewrite awaitReadFile_state.
  destruct (readFile (trace s) filePath) as [err|content].
  - destruct (hasCode err "ENOENT"); cbn; auto.
  - destruct (maybeTranspile filePath content _) as [[[ex|t]|e] s1]; cbn; auto.
Qed.


(** ** Calls of [maybeTranspile] that overlap *)

(** A call that nothing interrupts is its part before the [await] followed by
    its part after. *)
Lemma maybeTranspile_start_resume filePath code (s : St) :
  maybeTranspile filePath code s =
  bind (maybeTranspileStart filePath code) maybeTranspileResume s.
Proof.
  unfold maybeTranspile, maybeTranspileStart, maybeTranspileResume, bind, ret.
  destruct (isNative filePath); [reflexivity|].
  unfold md5, transpileCacheGet, awaitTranspileCode.
  cbn [transpileCache analyzeCache trace].
  destruct (get (hexDigestMd5 code) (transpileCache s)) as [[v|] c];
    [reflexivity|].
  cbn [transpileCache analyzeCache trace].
  now destruct (transpileCode _ code) as [ex|[t|]].
Qed.

Lemma maybeTranspileStart_miss filePath code (s : St) :
  isNative filePath = false ->
  find (hexDigestMd5 code) (entries (transpileCache s)) = None ->
  maybeTranspileStart filePath code s =
  (Normal (AwaitingTranspileCode (hexDigestMd5 code) (transpilerAnswer s code)),
   mkState (transpileCache s) (analyzeCache s)
           (TranspileCode code :: TranspileCacheGet (hexDigestMd5 code)
              :: Md5 code :: trace s)).
Proof.
  intros Hn Hmiss.
  unfold maybeTranspileStart, bind, ret, md5, transpileCacheGet,
    awaitTranspileCode, transpilerAnswer.
  rewrite Hn. cbn [transpileCache analyzeCache trace].
  now rewrite (get_miss _ _ Hmiss).
Qed.

Lemma maybeTranspileResume_awaiting hash reply (s : St) :
  maybeTranspileResume (AwaitingTranspileCode hash reply) s =
  match reply with
  | TranspileCodeThrows ex => (Normal (TranspileError ex), s)
  | TranspileCodeReturns None =>
      (Abrupt (JsError "BUG: transpiled code is undefined"), s)
  | TranspileCodeReturns (Some transpiled) =>
      (Normal (TranspileSuccess transpiled),
       mkState (set hash transpiled (transpileCache s)) (analyzeCache s)
               (TranspileCacheSet hash transpiled :: trace s))
  end.
Proof. now destruct reply as [ex|[t|]]. Qed.

(** X17.  [maybeTranspile] is its part before the [await] followed by its
    part after.  Two overlapping calls on the same uncached content both call
    the transpiler, each gets the answer to its own call, and the cache keeps
    what was written last: when the second call's string fits the budget,
    the digest is left with exactly one entry, holding that string. *)
Theorem overlapping_calls_last_write_wins
        (filePathA filePathB code : string) (s : St) :
  budgeted s ->
  isNative filePathA = false -> isNative filePathB = false ->
  find (hexDigestMd5 code) (entries (transpileCache s)) = None ->
  (forall filePath code0 (s0 : St),
      maybeTranspile filePath code0 s0
      = bind (maybeTranspileStart filePath code0) maybeTranspileResume s0) /\
  exists outcomeA outcomeB s',
    maybeTranspileOverlapped filePathA filePathB code s
    = (Normal (outcomeA, outcomeB), s') /\
    transpilerCalls (trace s') = code :: code :: transpilerCalls (trace s) /\
    forall transpiledA transpiledB,
      outcomeA = Normal (TranspileSuccess transpiledA) ->
      outcomeB = Normal (TranspileSuccess transpiledB) ->
      (JsString.length (hexDigestMd5 code) + JsString.length transpiledB
       <= maxSize (transpileCache s))%N ->
      transpilerAnswer s code = TranspileCodeReturns (Some transpiledA) /\
      get (hexDigestMd5 code) (transpileCache s')
      = (Some transpiledB, transpileCache s') /\
      exists e,
        filter (fun e => String.eqb (key e) (hexDigestMd5 code))
               (entries (transpileCache s')) = [e] /\
        value e = transpiledB.
Proof.
  intros (_ & Hsize & _) HnA HnB Hmiss.
  split; [intros; apply maybeTranspile_start_resume|].
  unfold maybeTranspileOverlapped, bind.
  rewrite (maybeTranspileStart_miss _ _ _ HnA Hmiss).
  set (s1 := mkState _ _ _).
  rewrite (maybeTranspileStart_miss filePathB code s1 HnB Hmiss).
  set (s2 := mkState _ _ _).
  set (replyA := transpilerAnswer s code).
  set (replyB := transpilerAnswer s1 code).
  rewrite (maybeTranspileResume_awaiting (hexDigestMd5 code) replyA s2).
  destruct replyA as [exA|[tA|]] eqn:EA;
    match goal with
    | |- context [maybeTranspileResume _ ?s3] =>
        rewrite (maybeTranspileResume_awaiting (hexDigestMd5 code) replyB s3)
    end;
    destruct replyB as [exB|[tB|]] eqn:EB;
    do 3 eexists; (split; [reflexivity|]); (split; [reflexivity|]);
    intros transpiledA transpiledB HA HB Hfit;
    try discriminate HA; try discriminate HB.
  injection HA as <-. injection HB as <-.
  split; [reflexivity|]. cbn [transpileCache].
  assert (Hget : get (hexDigestMd5 code)
                     (set (hexDigestMd5 code) tB
                          (set (hexDigestMd5 code) tA (transpileCache s)))
                 = (Some tB, set (hexDigestMd5 code) tB
                                 (set (hexDigestMd5 code) tA (transpileCache s)))).
  { apply get_set.
    destruct (set_config (hexDigestMd5 code) tA (transpileCache s)) as [-> ->].
    now rewrite Hsize. }
  split; [exact Hget|].
  destruct (get_single_entry _ Hget) as (e & Hf & _ & Hv). now exists e.
Qed.

End Router.

(** * Part IV: the properties at concrete inputs

    The router below is [expressRouter({ express, baseFolder: "/srv" })] as
    bin/wurzel.ts builds it, over the sample collaborators; [tiny] is the
    same router with a transpile budget of 40 bytes. *)

Local Open Scope string_scope.

Local Notation "'sampleRouter' o" :=
  (expressRouter Sample.stringify Sample.resolver Sample.toFileURL
     Sample.fromFileURL o) (at level 10, only parsing).

Local Notation "'defaults'" := (mkOptions "/srv" None None None None) (only parsing).

Local Notation "'tinyBudget'" :=
  (mkOptions "/srv" None None (Some 40%N) None) (only parsing).

(** Least-recently-used eviction on a cache of 10 bytes whose entries cost
    key length plus value length: after [a], [b], [c] (3 bytes each) and a
    [get] of [a], storing [d] (4 bytes) evicts [b] and nothing else. *)
Example lru_eviction_example :
  let cost := fun (v k : string) => (JsString.length k + JsString.length v)%N in
  let c0 := LRUCache.create 10 cost in
  let c3 := LRUCache.set "c" "zz" (LRUCache.set "b" "yy" (LRUCache.set "a" "xx" c0)) in
  let c4 := snd (LRUCache.get "a" c3) in
  let c5 := LRUCache.set "d" "www" c4 in
  map LRUCache.key (LRUCache.entries c3) = ["a"; "b"; "c"]%string /\
  map LRUCache.key (LRUCache.entries c4) = ["b"; "c"; "a"]%string /\
  map LRUCache.key (LRUCache.entries c5) = ["c"; "a"; "d"]%string /\
  LRUCache.calculatedSize (LRUCache.entries c5) = 10%N /\
  map LRUCache.key (LRUCache.entries (LRUCache.set "e" "0123456789" c5))
  = ["c"; "a"; "d"]%string.
Proof. repeat split. Qed.

(** [req.url] carries the query string, so a script URL with a query is not
    classified as a script. *)
Example url_with_query_is_static :
  route (sampleRouter defaults) (mkRequest "GET" "/app.ts?v=1" "")
  = Normal (ExpressStatic "/srv" (mkRequest "GET" "/app.ts?v=1" "")).
Proof. reflexivity. Qed.

(** C1 as stated fails: with a transpiler that throws, and with a result that
    does not fit the budget, two calls in a row invoke the transpiler twice. *)
Lemma maybeTranspile_twice_counterexample :
  let code := "const x = 1;"%string in
  let failing :=
    maybeTranspile (ICodeAnalyzeResult := string) Sample.digest
      Sample.failingTranspiler "/srv/app.ts" code in
  let working :=
    maybeTranspile (ICodeAnalyzeResult := string) Sample.digest
      Sample.transpiler "/srv/app.ts" code in
  let s := initialState (sampleRouter defaults) in
  let tiny := initialState (sampleRouter tinyBudget) in
  isNative "/srv/app.ts" = false /\
  (fst (failing s) = Normal (TranspileError (JsError "Unexpected token")) /\
   transpilerCalls (trace (snd (failing (snd (failing s))))) = [code; code]) /\
  (fst (working tiny) = Normal (TranspileSuccess "/* js */ const x = 1;") /\
   fst (working (snd (working tiny))) = Normal (TranspileSuccess "/* js */ const x = 1;") /\
   transpilerCalls (trace (snd (working (snd (working tiny))))) = [code; code]).
Proof. vm_compute. repeat split. Qed.

Lemma maybeTranspile_twice_witness :
  let code := "const x = 1;"%string in
  let call :=
    maybeTranspile (ICodeAnalyzeResult := string) Sample.digest
      Sample.transpiler "/srv/app.ts" code in
  let s := initialState (sampleRouter defaults) in
  let s1 := snd (call s) in
  budgeted Sample.stringify s /\
  isNative "/srv/app.ts" = false /\
  call s = (Normal (TranspileSuccess "/* js */ const x = 1;"), s1) /\
  (JsString.length (Sample.digest code) + JsString.length "/* js */ const x = 1;"
   <= LRUCache.maxSize (transpileCache s))%N /\
  exists s2,
    call s1 = (Normal (TranspileSuccess "/* js */ const x = 1;"), s2) /\
    transpilerCalls (trace s2) = transpilerCalls (trace s1) /\
    (List.length (transpilerCalls (trace s2))
     <= 1 + List.length (transpilerCalls (trace s)))%nat.
Proof.
  intros code call s s1.
  assert (Hb : budgeted Sample.stringify s).
  { unfold budgeted, LRUCache.wf. cbn.
    repeat split; try constructor; discriminate. }
  assert (Hfit : (JsString.length (Sample.digest code)
                  + JsString.length "/* js */ const x = 1;"
                  <= LRUCache.maxSize (transpileCache s))%N).
  { vm_compute. discriminate. }
  repeat (split; [first [exact Hb | exact Hfit | reflexivity]|]).
  exact (@maybeTranspile_twice string Sample.stringify Sample.digest
           Sample.transpiler "/srv/app.ts" code s s1 "/* js */ const x = 1;"
           Hb eq_refl eq_refl Hfit).
Defined.

Lemma maybeTranspile_native_passthrough_witness :
  let s := initialState (sampleRouter defaults) in
  (JsString.endsWith "/srv/lib/util.mjs" ".js" = true \/
   JsString.endsWith "/srv/lib/util.mjs" ".mjs" = true) /\
  maybeTranspile Sample.digest Sample.failingTranspiler
    "/srv/lib/util.mjs" "export {};" s
  = (Normal (TranspileSuccess "export {};"), s).
Proof.
  intros s. split; [right; reflexivity|].
  apply maybeTranspile_native_passthrough. right. reflexivity.
Defined.

Lemma failures_are_not_cached_witness :
  let code := "const x = ;"%string in
  let s := initialState (sampleRouter defaults) in
  let transpile :=
    maybeTranspile (ICodeAnalyzeResult := string) Sample.digest
      Sample.failingTranspiler in
  let analyze := analyzeCode Sample.digest Sample.failingAnalyzer in
  (exists s1,
      transpile "/srv/app.ts" code s
      = (Normal (TranspileError (JsError "Unexpected token")), s1) /\
      transpileCache s1 = transpileCache s /\
      transpilerCalls (trace s1) = [code] /\
      transpilerCalls (trace (snd (transpile "/srv/main.ts" code s1)))
      = [code; code]) /\
  (exists s1,
      analyze code s = (Normal (AnalyzeError (JsError "parse error")), s1) /\
      analyzeCache s1 = analyzeCache s /\
      analyzerCalls (trace s1) = [code] /\
      analyzerCalls (trace (snd (analyze code s1))) = [code; code]).
Proof.
  intros code s transpile analyze. subst transpile analyze.
  destruct (@failures_are_not_cached string Sample.digest
              Sample.failingTranspiler Sample.failingAnalyzer
              "/srv/app.ts" "/srv/main.ts" code s)
    as [Ht Ha].
  split.
  - destruct (Ht (JsError "Unexpected token") eq_refl eq_refl eq_refl eq_refl)
      as (s1 & H1 & H2 & H3 & H4).
    exists s1. repeat split; [exact H1 | exact H2 | exact H3 |].
    rewrite H4, H3. reflexivity.
  - destruct (Ha (JsError "parse error") eq_refl eq_refl)
      as (s1 & H1 & H2 & H3 & H4).
    exists s1. repeat split; [exact H1 | exact H2 | exact H3 |].
    rewrite H4, H3. reflexivity.
Defined.

(** C7 as stated fails: the same content under two paths leaves no shared
    entry and costs two transpiler calls when the transpiler throws, and when
    the result does not fit the budget. *)
Lemma content_addressed_cache_counterexample :
  let code := "export const a = 1;"%string in
  let failing :=
    maybeTranspile (ICodeAnalyzeResult := string) Sample.digest
      Sample.failingTranspiler in
  let working :=
    maybeTranspile (ICodeAnalyzeResult := string) Sample.digest
      Sample.transpiler in
  let s := initialState (sampleRouter defaults) in
  let tiny := initialState (sampleRouter tinyBudget) in
  let s2 := snd (failing "/srv/vendor/a.ts" code (snd (failing "/srv/a.ts" code s))) in
  let t2 := snd (working "/srv/vendor/a.ts" code (snd (working "/srv/a.ts" code tiny))) in
  isNative "/srv/a.ts" = false /\ isNative "/srv/vendor/a.ts" = false /\
  (transpilerCalls (trace s2) = [code; code] /\
   LRUCache.entries (transpileCache s2) = []) /\
  (transpilerCalls (trace t2) = [code; code] /\
   LRUCache.entries (transpileCache t2) = []).
Proof. vm_compute. repeat split. Qed.

Lemma content_addressed_cache_witness :
  let code := "export const a = 1;"%string in
  let call :=
    maybeTranspile (ICodeAnalyzeResult := string) Sample.digest Sample.transpiler in
  let s := initialState (sampleRouter defaults) in
  isNative "/srv/a.ts" = false /\ isNative "/srv/vendor/a.ts" = false /\
  call "/srv/a.ts" code s = call "/srv/vendor/a.ts" code s /\
  forall transpiled s1,
    budgeted Sample.stringify s ->
    call "/srv/a.ts" code s = (Normal (TranspileSuccess transpiled), s1) ->
    (JsString.length (Sample.digest code) + JsString.length transpiled
     <= LRUCache.maxSize (transpileCache s))%N ->
    exists s2 e,
      call "/srv/vendor/a.ts" code s1 = (Normal (TranspileSuccess transpiled), s2) /\
      transpilerCalls (trace s2) = transpilerCalls (trace s1) /\
      (List.length (transpilerCalls (trace s2))
       <= 1 + List.length (transpilerCalls (trace s)))%nat /\
      filter (fun e => String.eqb (LRUCache.key e) (Sample.digest code))
             (LRUCache.entries (transpileCache s2)) = [e] /\
      LRUCache.value e = transpiled.
Proof.
  intros code call s.
  split; [reflexivity|]. split; [reflexivity|].
  exact (@content_addressed_cache string Sample.stringify Sample.digest
           Sample.transpiler "/srv/a.ts" "/srv/vendor/a.ts" code s
           eq_refl eq_refl).
Defined.

Lemma defaultResolveImportPath_policy_witness :
  let resolve :=
    defaultResolveImportPath Sample.resolver Sample.toFileURL Sample.fromFileURL
      "/srv/app.ts" in
  resolve "nope"
  = ImportError (mkError "Cannot find package 'nope'" (Some "ERR_MODULE_NOT_FOUND")) /\
  resolve "fs"
  = ImportError (JsError ("node imports are not supported, got "
                          ++ JsString.quoted "node:fs")) /\
  resolve "data:text/javascript,1"
  = ImportError (JsError ("only file imports are supported, got "
                          ++ JsString.quoted "data:text/javascript,1")) /\
  resolve "lib/util.js" = ImportFilePath "/srv/lib/util.js".
Proof.
  intros resolve.
  pose proof (defaultResolveImportPath_policy Sample.resolver Sample.toFileURL
                Sample.fromFileURL "/srv/app.ts") as H.
  split; [exact (H "nope")|].
  split; [exact (proj1 (H "fs") eq_refl)|].
  split; [exact (proj1 (proj2 (H "data:text/javascript,1")) eq_refl eq_refl)|].
  exact (proj2 (proj2 (H "lib/util.js")) eq_refl).
Defined.

Lemma caches_stay_within_budget_witness :
  let o := mkOptions "/srv" None (Some 60%N) (Some 100%N) None in
  let calls :=
    [CallMaybeTranspile "/srv/a.ts" "aaaa"; CallMaybeTranspile "/srv/b.ts" "bbbb";
     CallAnalyzeCode "aaaa"; CallMaybeTranspile "/srv/a.ts" "aaaa";
     CallTryReadScriptAsString "/srv/app.ts"; CallAnalyzeCode "bbbb"] in
  let s :=
    run Sample.digest Sample.transpiler Sample.analyzer Sample.fs calls
      (initialState (sampleRouter o)) in
  map LRUCache.value (LRUCache.entries (transpileCache s))
  = ["/* js */ aaaa"; "/* js */ const x = 1;"] /\
  map LRUCache.key (LRUCache.entries (analyzeCache s))
  = [Sample.digest "bbbb"] /\
  (LRUCache.calculatedSize (LRUCache.entries (transpileCache s)) <= 100)%N /\
  (LRUCache.calculatedSize (LRUCache.entries (analyzeCache s)) <= 60)%N.
Proof.
  intros o calls s.
  split; [reflexivity|]. split; [reflexivity|].
  pose proof (@caches_stay_within_budget string Sample.stringify Sample.digest
                Sample.transpiler Sample.analyzer Sample.fs Sample.resolver
                Sample.toFileURL Sample.fromFileURL o calls)
    as ((H1 & _ & H2 & _) & _).
  split; [exact H1 | exact H2].
Defined.

Lemma maybeTranspile_undefined_is_fatal_witness :
  let code := "const x = 1;"%string in
  let s := initialState (sampleRouter defaults) in
  isNative "/srv/app.ts" = false /\
  LRUCache.find (Sample.digest code) (LRUCache.entries (transpileCache s)) = None /\
  transpilerAnswer Sample.digest Sample.brokenTranspiler s code
  = TranspileCodeReturns None /\
  exists s',
    maybeTranspile Sample.digest Sample.brokenTranspiler "/srv/app.ts" code s
    = (Abrupt (JsError "BUG: transpiled code is undefined"), s') /\
    transpileCache s' = transpileCache s /\
    trace s' = TranspileCode code :: TranspileCacheGet (Sample.digest code)
                 :: Md5 code :: trace s.
Proof.
  intros code s. repeat (split; [reflexivity|]).
  exact (@maybeTranspile_undefined_is_fatal string Sample.digest
           Sample.brokenTranspiler "/srv/app.ts" code s
           eq_refl eq_refl eq_refl).
Defined.

Lemma tryReadScriptAsString_error_mapping_witness :
  let s := initialState (sampleRouter defaults) in
  let read := tryReadScriptAsString Sample.digest Sample.failingTranspiler Sample.fs in
  let enoent := mkError "ENOENT: no such file or directory" (Some "ENOENT"%string) in
  let eacces := mkError "EACCES: permission denied" (Some "EACCES"%string) in
  fst (read "/srv/missing.ts" s)
  = Normal (ReadFailure (createReadError FILE_NOT_FOUND (message enoent) enoent)) /\
  fst (read "/srv/locked.ts" s)
  = Normal (ReadFailure (createReadError IO_ERROR (message eacces) eacces)) /\
  fst (read "/srv/app.ts" s)
  = Normal (ReadFailure
              (createReadError IO_ERROR
                 ("failed to transpile code of " ++ JsString.quoted "/srv/app.ts")
                 (JsError "Unexpected token"))).
Proof.
  intros s read enoent eacces.
  pose proof (@tryReadScriptAsString_error_mapping string Sample.digest
                Sample.failingTranspiler Sample.fs "/srv/missing.ts" s) as (H1 & _).
  pose proof (@tryReadScriptAsString_error_mapping string Sample.digest
                Sample.failingTranspiler Sample.fs "/srv/locked.ts" s) as (_ & H2 & _).
  pose proof (@tryReadScriptAsString_error_mapping string Sample.digest
                Sample.failingTranspiler Sample.fs "/srv/app.ts" s) as (_ & _ & H3 & _).
  split; [|split].
  - unfold read. now rewrite (H1 enoent eq_refl eq_refl).
  - unfold read. now rewrite (H2 eacces eq_refl eq_refl).
  - unfold read. now rewrite (H3 "const x = 1;"%string (JsError "Unexpected token") _ eq_refl
                               (surjective_pairing _)).
Defined.

(** C9 as stated fails: a HEAD request for a static asset is not a script
    request and yet does not reach static serving, and a HEAD request for a
    script is not handed to the debug core. *)
Lemma script_requests_counterexample :
  let r := sampleRouter defaults in
  let asset := mkRequest "HEAD" "/styles.css" "" in
  let script := mkRequest "HEAD" "/app.ts" "" in
  (isScript (fileEndings r) asset = false /\
   route r asset = Abrupt (JsError "HEAD not supported yet") /\
   route r asset <> Normal (ExpressStatic (baseFolder r) asset)) /\
  (isScript (fileEndings r) script = true /\
   route r script = Abrupt (JsError "HEAD not supported yet") /\
   route r script <> Normal (HandleRequest (url script))).
Proof. repeat split; discriminate. Qed.

Lemma script_requests_by_url_suffix_witness :
  let r := sampleRouter defaults in
  let req := mkRequest "GET" "/src/app.ts" "" in
  method req <> "HEAD"%string /\
  fileEndings r = [".js"; ".ts"]%string /\
  baseFolder r = "/srv"%string /\
  (isScript (fileEndings r) req = true <->
   exists ending, In ending (fileEndings r) /\
                  exists p, url req = (p ++ ending)%string) /\
  (isScript (fileEndings r) req = true ->
   route r req = Normal (HandleRequest (url req))) /\
  (isScript (fileEndings r) req = false ->
   route r req = Normal (ExpressStatic (baseFolder r) req)).
Proof.
  intros r req.
  assert (Hm : method req <> "HEAD"%string) by discriminate.
  split; [exact Hm|].
  exact (@script_requests_by_url_suffix string Sample.stringify Sample.resolver
           Sample.toFileURL Sample.fromFileURL defaults req Hm).
Defined.

(** * Part V: the further properties at concrete inputs *)

Lemma sample_digest_length (content : string) :
  String.length (Sample.digest content) = 32%nat.
Proof.
  unfold Sample.digest.
  repeat (destruct (String.eqb content _); [reflexivity|]).
  apply substring_length. rewrite append_length. simpl. lia.
Qed.

Lemma tryReadScriptAsString_twice_witness :
  let read :=
    tryReadScriptAsString (ICodeAnalyzeResult := string) Sample.digest
      Sample.transpiler Sample.fs "/srv/app.ts" in
  let s := initialState (sampleRouter defaults) in
  let s1 := snd (read s) in
  budgeted Sample.stringify s /\
  isNative "/srv/app.ts" = false /\
  Sample.fs (trace s) "/srv/app.ts" = ReadFileResolves "const x = 1;" /\
  Sample.fs (trace s1) "/srv/app.ts" = ReadFileResolves "const x = 1;" /\
  read s = (Normal (ReadContent "/* js */ const x = 1;"), s1) /\
  (JsString.length (Sample.digest "const x = 1;")
   + JsString.length "/* js */ const x = 1;"
   <= LRUCache.maxSize (transpileCache s))%N /\
  exists s2,
    read s1 = (Normal (ReadContent "/* js */ const x = 1;"), s2) /\
    transpilerCalls (trace s2) = transpilerCalls (trace s1) /\
    fileReads (trace s2) = "/srv/app.ts" :: fileReads (trace s1).
Proof.
  intros read s s1.
  assert (Hb : budgeted Sample.stringify s).
  { unfold budgeted, LRUCache.wf. cbn.
    repeat split; try constructor; discriminate. }
  assert (Hfit : (JsString.length (Sample.digest "const x = 1;")
                  + JsString.length "/* js */ const x = 1;"
                  <= LRUCache.maxSize (transpileCache s))%N).
  { vm_compute. discriminate. }
  repeat (split; [first [exact Hb | exact Hfit | reflexivity]|]).
  exact (@tryReadScriptAsString_twice string Sample.stringify Sample.digest
           Sample.transpiler Sample.fs "/srv/app.ts" "const x = 1;"
           "/* js */ const x = 1;" s s1 Hb eq_refl eq_refl eq_refl eq_refl Hfit).
Defined.

Lemma native_files_are_served_verbatim_witness :
  let s := initialState (sampleRouter defaults) in
  isNative "/srv/lib/util.mjs" = true /\
  SampleFiles.fs (trace s) "/srv/lib/util.mjs" = ReadFileResolves "export {};" /\
  tryReadScriptAsString Sample.digest Sample.failingTranspiler SampleFiles.fs
    "/srv/lib/util.mjs" s
  = (Normal (ReadContent "export {};"),
     mkState (transpileCache s) (analyzeCache s)
             (ReadFile "/srv/lib/util.mjs" :: trace s)).
Proof.
  intros s. split; [reflexivity|]. split; [reflexivity|].
  exact (@native_files_are_served_verbatim string Sample.digest
           Sample.failingTranspiler SampleFiles.fs "/srv/lib/util.mjs"
           "export {};" s eq_refl eq_refl).
Defined.

Lemma analyzeCode_twice_witness :
  let analyze := analyzeCode Sample.digest Sample.analyzer "aaaa" in
  let s := initialState (sampleRouter defaults) in
  let s1 := snd (analyze s) in
  budgeted Sample.stringify s /\
  analyze s = (Normal (AnalyzeResult "{}"), s1) /\
  (JsString.length (Sample.digest "aaaa") + JsString.length (Sample.stringify "{}")
   <= LRUCache.maxSize (analyzeCache s))%N /\
  exists s2,
    analyze s1 = (Normal (AnalyzeResult "{}"), s2) /\
    analyzerCalls (trace s2) = analyzerCalls (trace s1) /\
    (List.length (analyzerCalls (trace s2))
     <= 1 + List.length (analyzerCalls (trace s)))%nat.
Proof.
  intros analyze s s1.
  assert (Hb : budgeted Sample.stringify s).
  { unfold budgeted, LRUCache.wf. cbn.
    repeat split; try constructor; discriminate. }
  assert (Hfit : (JsString.length (Sample.digest "aaaa")
                  + JsString.length (Sample.stringify "{}")
                  <= LRUCache.maxSize (analyzeCache s))%N).
  { vm_compute. discriminate. }
  repeat (split; [first [exact Hb | exact Hfit | reflexivity]|]).
  exact (@analyzeCode_twice string Sample.stringify Sample.digest Sample.analyzer
           "aaaa" s s1 "{}" Hb eq_refl Hfit).
Defined.

Lemma only_the_broken_contract_throws_witness :
  let s := initialState (sampleRouter defaults) in
  let call :=
    tryReadScriptAsString (ICodeAnalyzeResult := string) Sample.digest
      Sample.brokenTranspiler Sample.fs "/srv/app.ts" s in
  fst call = Abrupt (JsError "BUG: transpiled code is undefined") /\
  exists content,
    Sample.fs (trace s) "/srv/app.ts" = ReadFileResolves content /\
    isNative "/srv/app.ts" = false /\
    transpileCache (snd call) = transpileCache s.
Proof.
  intros s call. split; [reflexivity|].
  exact (proj2 (proj2 (@only_the_broken_contract_throws string Sample.digest
                         Sample.brokenTranspiler Sample.fs "/srv/app.ts" ""
                         s (snd call)
                         (JsError "BUG: transpiled code is undefined"))
                  eq_refl)).
Defined.

Lemma cached_results_come_from_the_transpiler_witness :
  let cs := [CallMaybeTranspile "/srv/a.ts" "aaaa"] in
  let s :=
    run Sample.digest Sample.transpiler Sample.analyzer Sample.fs cs
      (initialState (sampleRouter defaults)) in
  isNative "/srv/copy/a.ts" = false /\
  fst (maybeTranspile Sample.digest Sample.transpiler "/srv/copy/a.ts" "aaaa" s)
  = Normal (TranspileSuccess "/* js */ aaaa") /\
  cachesSound Sample.digest Sample.transpiler Sample.analyzer s /\
  exists tr code',
    Sample.digest code' = Sample.digest "aaaa" /\
    Sample.transpiler tr code' = TranspileCodeReturns (Some "/* js */ aaaa").
Proof.
  intros cs s. split; [reflexivity|]. split; [reflexivity|].
  exact (@cached_results_come_from_the_transpiler string Sample.stringify
           Sample.digest Sample.transpiler Sample.analyzer Sample.fs
           Sample.resolver Sample.toFileURL Sample.fromFileURL defaults cs
           "/srv/copy/a.ts" "aaaa" "/* js */ aaaa" eq_refl eq_refl).
Defined.

Lemma maybeTranspile_is_transparent_witness :
  let cs := [CallMaybeTranspile "/srv/a.ts" "aaaa";
             CallMaybeTranspile "/srv/b.ts" "bbbb"] in
  let s :=
    run Sample.digest Sample.transpiler Sample.analyzer Sample.fs cs
      (initialState (sampleRouter defaults)) in
  (forall tr c, Sample.transpiler tr c = Sample.transpiler [] c) /\
  noTranspileCollision Sample.digest s "aaaa" /\
  isNative "/srv/copy/a.ts" = false /\
  fst (maybeTranspile Sample.digest Sample.transpiler "/srv/copy/a.ts" "aaaa" s)
  = Normal (TranspileSuccess "/* js */ aaaa").
Proof.
  intros cs s.
  assert (Hpure : forall tr c, Sample.transpiler tr c = Sample.transpiler [] c)
    by reflexivity.
  assert (Hfree : noTranspileCollision Sample.digest s "aaaa").
  { intros c Hin Hd. vm_compute in Hin.
    repeat (destruct Hin as [Hin|Hin];
            [try discriminate Hin; injection Hin as <-;
             first [reflexivity | vm_compute in Hd; discriminate Hd]|]).
    destruct Hin. }
  split; [exact Hpure|]. split; [exact Hfree|]. split; [reflexivity|].
  exact (@maybeTranspile_is_transparent string Sample.stringify Sample.digest
           Sample.transpiler Sample.analyzer Sample.fs Sample.resolver
           Sample.toFileURL Sample.fromFileURL defaults cs
           (Sample.transpiler []) "/srv/copy/a.ts" "aaaa"
           Hpure Hfree eq_refl).
Defined.

Lemma analyzeCode_is_transparent_witness :
  let cs := [CallAnalyzeCode "aaaa"; CallAnalyzeCode "bbbb"] in
  let s :=
    run Sample.digest Sample.transpiler Sample.analyzer Sample.fs cs
      (initialState (sampleRouter defaults)) in
  (forall tr c, Sample.analyzer tr c = Sample.analyzer [] c) /\
  noAnalyzeCollision Sample.digest s "aaaa" /\
  fst (analyzeCode Sample.digest Sample.analyzer "aaaa" s)
  = Normal (AnalyzeResult "{}").
Proof.
  intros cs s.
  assert (Hpure : forall tr c, Sample.analyzer tr c = Sample.analyzer [] c)
    by reflexivity.
  assert (Hfree : noAnalyzeCollision Sample.digest s "aaaa").
  { intros c Hin Hd. vm_compute in Hin.
    repeat (destruct Hin as [Hin|Hin];
            [try discriminate Hin; injection Hin as <-;
             first [reflexivity | vm_compute in Hd; discriminate Hd]|]).
    destruct Hin. }
  split; [exact Hpure|]. split; [exact Hfree|].
  exact (@analyzeCode_is_transparent string Sample.stringify Sample.digest
           Sample.transpiler Sample.analyzer Sample.fs Sample.resolver
           Sample.toFileURL Sample.fromFileURL defaults cs
           (Sample.analyzer []) "aaaa" Hpure Hfree).
Defined.

Lemma caches_hold_few_entries_witness :
  let o := mkOptions "/srv" None (Some 60%N) (Some 100%N) None in
  let cs :=
    [CallMaybeTranspile "/srv/a.ts" "aaaa"; CallMaybeTranspile "/srv/b.ts" "bbbb";
     CallAnalyzeCode "aaaa"; CallTryReadScriptAsString "/srv/app.ts";
     CallAnalyzeCode "bbbb"] in
  let s :=
    run Sample.digest Sample.transpiler Sample.analyzer Sample.fs cs
      (initialState (sampleRouter o)) in
  (forall content, String.length (Sample.digest content) = 32%nat) /\
  List.length (LRUCache.entries (transpileCache s)) = 2%nat /\
  List.length (LRUCache.entries (analyzeCache s)) = 1%nat /\
  (32 * N.of_nat (List.length (LRUCache.entries (transpileCache s))) <= 100)%N /\
  (32 * N.of_nat (List.length (LRUCache.entries (analyzeCache s))) <= 60)%N.
Proof.
  intros o cs s.
  split; [exact sample_digest_length|].
  split; [reflexivity|]. split; [reflexivity|].
  exact (@caches_hold_few_entries string Sample.stringify Sample.digest
           Sample.transpiler Sample.analyzer Sample.fs Sample.resolver
           Sample.toFileURL Sample.fromFileURL o cs sample_digest_length).
Defined.

Lemma filePath_only_for_file_urls_witness :
  defaultResolveImportPath Sample.resolver Sample.toFileURL Sample.fromFileURL
    "/srv/app.ts" "lib/util.js"
  = ImportFilePath "/srv/lib/util.js" /\
  exists resolvedUrl,
    Sample.resolver "lib/util.js" (Sample.toFileURL "/srv/app.ts")
    = ResolveImportReturns resolvedUrl /\
    JsString.startsWith resolvedUrl "file:" = true /\
    JsString.startsWith resolvedUrl "node:" = false /\
    "/srv/lib/util.js" = Sample.fromFileURL resolvedUrl.
Proof.
  split; [reflexivity|].
  exact (@filePath_only_for_file_urls Sample.resolver Sample.toFileURL
           Sample.fromFileURL "/srv/app.ts" "lib/util.js" "/srv/lib/util.js"
           eq_refl).
Defined.

Lemma mjs_urls_are_static_by_default_witness :
  let req := mkRequest "GET" "/lib/util.mjs" "" in
  optFileEndings defaults = None /\
  method req <> "HEAD" /\
  JsString.endsWith (url req) ".mjs" = true /\
  route (sampleRouter defaults) req = Normal (ExpressStatic "/srv" req) /\
  forall rootFolder,
    route (wurzelCli Sample.stringify Sample.resolver Sample.toFileURL
             Sample.fromFileURL rootFolder) req
    = Normal (ExpressStatic rootFolder req).
Proof.
  intros req.
  assert (Hm : method req <> "HEAD") by discriminate.
  split; [reflexivity|]. split; [exact Hm|]. split; [reflexivity|].
  exact (@mjs_urls_are_static_by_default string Sample.stringify Sample.resolver
           Sample.toFileURL Sample.fromFileURL defaults req eq_refl Hm eq_refl).
Defined.

Lemma overlapping_calls_last_write_wins_witness :
  let s := initialState (sampleRouter defaults) in
  let both :=
    maybeTranspileOverlapped (ICodeAnalyzeResult := string) Sample.digest
      SampleVersions.transpiler "/srv/a.ts" "/srv/copy/a.ts" "aaaa" s in
  budgeted Sample.stringify s /\
  isNative "/srv/a.ts" = false /\ isNative "/srv/copy/a.ts" = false /\
  LRUCache.find (Sample.digest "aaaa") (LRUCache.entries (transpileCache s)) = None /\
  fst both = Normal (Normal (TranspileSuccess "/* build 1 */ aaaa"),
                     Normal (TranspileSuccess "/* build 2 */ aaaa")) /\
  map LRUCache.value (LRUCache.entries (transpileCache (snd both)))
  = ["/* build 2 */ aaaa"] /\
  transpilerCalls (trace (snd both)) = ["aaaa"; "aaaa"].
Proof.
  intros s both.
  assert (Hb : budgeted Sample.stringify s).
  { unfold budgeted, LRUCache.wf. cbn.
    repeat split; try constructor; discriminate. }
  repeat (split; [first [exact Hb | reflexivity]|]).
  destruct (@overlapping_calls_last_write_wins string Sample.stringify
              Sample.digest SampleVersions.transpiler
              "/srv/a.ts" "/srv/copy/a.ts" "aaaa" s Hb eq_refl eq_refl eq_refl)
    as (_ & outcomeA & outcomeB & s' & Hrun & Hcalls & _).
  unfold both. rewrite Hrun. exact Hcalls.
Defined.
